(** * read_books.py: page-by-page knowledge extraction and summaries

    A shallow embedding of [src/read_books.py].  The script reads PDF books
    page by page, asks a generative model for the knowledge points of each
    page, keeps them in a per-document JSON file and asks the same model for
    markdown summaries at intervals and after the last page.

    Python text is a list of code points, Python objects coming out of the
    JSON parsers are a small inductive type, and every function of the script
    that touches the disk, the console or the model is a computation in a
    state-and-exception monad over an explicit [World]. *)

From Stdlib Require Import ZArith List Ascii String Decimal DecimalNat DecimalString
  SpecFloat.
From stdpp Require Import base list gmap.

Open Scope Z_scope.
Open Scope list_scope.

(** ** Text *)

(** A Python [str] is a sequence of Unicode code points. *)
Definition pystr := list N.

(** String literals of the script. *)
Definition str (s : string) : pystr :=
  map N_of_ascii (list_ascii_of_string s).

(** [str.isspace] on one code point, the set used by [str.split()] without
    argument. *)
Definition isspace (c : N) : bool :=
  ((9 <=? c) && (c <=? 13) || (28 <=? c) && (c <=? 32)
   || (c =? 133) || (c =? 160) || (c =? 5760)
   || (8192 <=? c) && (c <=? 8202)
   || (c =? 8232) || (c =? 8233) || (c =? 8239) || (c =? 8287)
   || (c =? 12288))%N.

(** [s.split()]: the maximal runs of non-space characters, in order.
    [cur] is the run being read, in reverse. *)
Fixpoint split_aux (cur : pystr) (s : pystr) : list pystr :=
  match s with
  | [] => match cur with [] => [] | _ => [rev cur] end
  | c :: s' =>
      if isspace c
      then match cur with
           | [] => split_aux [] s'
           | _ => rev cur :: split_aux [] s'
           end
      else split_aux (c :: cur) s'
  end.

Definition split (s : pystr) : list pystr := split_aux [] s.

(** [len(s.split())] *)
Definition word_count (s : pystr) : Z := Z.of_nat (length (split s)).

(** [old] is a prefix of [s]. *)
Fixpoint startswith (old s : pystr) : bool :=
  match old, s with
  | [], _ => true
  | _ :: _, [] => false
  | a :: old', b :: s' => (a =? b)%N && startswith old' s'
  end.

(** [s.replace(old, new)] for a non-empty [old]: the occurrences of [old] are
    found left to right without overlap.  [skip] counts the characters of an
    occurrence still to drop. *)
Fixpoint replace_aux (old new : pystr) (skip : nat) (s : pystr) : pystr :=
  match s with
  | [] => []
  | c :: s' =>
      match skip with
      | S k => replace_aux old new k s'
      | O =>
          if startswith old s
          then new ++ replace_aux old new (length old - 1) s'
          else c :: replace_aux old new 0 s'
      end
  end.

Definition replace (old new s : pystr) : pystr := replace_aux old new 0 s.

(** [fnmatch] for the patterns the script builds: [*] matches any run of
    characters, [?] any single character, every other character itself.
    Bracket classes are not modelled: the results below that depend on
    matching are stated for names free of [*], [?] and [[]. *)
Definition STAR : N := 42.
Definition QUESTION : N := 63.
Definition LBRACKET : N := 91.

Fixpoint fnmatch (pat name : pystr) : bool :=
  match pat with
  | [] => match name with [] => true | _ => false end
  | p :: pat' =>
      if (p =? STAR)%N
      then (fix star (name : pystr) : bool :=
              fnmatch pat' name ||
              match name with [] => false | _ :: name' => star name' end) name
      else match name with
           | [] => false
           | c :: name' => ((p =? QUESTION)%N || (p =? c)%N) && fnmatch pat' name'
           end
  end.

Definition glob_literal (s : pystr) : Prop :=
  Forall (fun c => c <> STAR /\ c <> QUESTION /\ c <> LBRACKET) s.

(** [f"{n:03d}"] for a non-negative [n]: decimal, padded with zeros to three
    characters. *)
Definition decimal (n : nat) : pystr := str (NilZero.string_of_uint (Nat.to_uint n)).

Definition format_03d (n : nat) : pystr :=
  let d := decimal n in repeat 48%N (3 - length d) ++ d.

(** Reading a decimal numeral back, most significant digit first. *)
Fixpoint read_digits (s : pystr) (acc : nat) : nat :=
  match s with
  | [] => acc
  | c :: s' => read_digits s' (10 * acc + (N.to_nat c - 48))%nat
  end.

(** ** Exceptions *)

(** The exception classes the script, its libraries and the interpreter can
    raise here. *)
Inductive exn :=
  | BaseException | KeyboardInterrupt | Exception
  | ValueError | JSONDecodeError
  | AttributeError | TypeError
  | LookupError | KeyError
  | OSError | FileNotFoundError | IsADirectoryError
  | EOFError | ImportError
  | RuntimeError | FileDataError
  | GoogleAPIError.

#[global] Instance exn_eq_dec : EqDecision exn.
Proof. solve_decision. Defined.

(** The base class of a class. *)
Definition base (c : exn) : option exn :=
  match c with
  | BaseException => None
  | KeyboardInterrupt | Exception => Some BaseException
  | JSONDecodeError => Some ValueError
  | KeyError => Some LookupError
  | FileNotFoundError | IsADirectoryError => Some OSError
  | FileDataError => Some RuntimeError
  | ValueError | AttributeError | TypeError | LookupError | OSError
  | EOFError | ImportError | RuntimeError | GoogleAPIError => Some Exception
  end.

Fixpoint issubclass_upto (depth : nat) (c d : exn) : bool :=
  bool_decide (c = d) ||
  match depth with
  | O => false
  | S depth' =>
      match base c with
      | Some b => issubclass_upto depth' b d
      | None => false
      end
  end.

(** [except d:] catches an exception of class [c] when [issubclass c d]. *)
Definition issubclass (c d : exn) : bool := issubclass_upto 3 c d.

(** ** Python objects *)

Set Warnings "-register-all".

(** What [json.load] and [json5.loads] return.  A dict is the list of its
    items in insertion order. *)
Inductive value :=
  | VNone
  | VBool (b : bool)
  | VInt (n : Z)
  | VFloat (f : spec_float)
  | VStr (s : pystr)
  | VList (l : list value)
  | VDict (d : list (pystr * value)).

(** [bool(v)] *)
Definition truthy (v : value) : bool :=
  match v with
  | VNone => false
  | VBool b => b
  | VInt n => negb (n =? 0)
  | VFloat f => match f with S754_zero _ => false | _ => true end
  | VStr s => match s with [] => false | _ => true end
  | VList l => match l with [] => false | _ => true end
  | VDict d => match d with [] => false | _ => true end
  end.

Fixpoint lookup_key (k : pystr) (d : list (pystr * value)) : option value :=
  match d with
  | [] => None
  | (k', v) :: d' => if decide (k = k') then Some v else lookup_key k d'
  end.

(** ** The world *)

(** A file holds a JSON document, as [json.dump] writes it and [json.load]
    reads it back, or text that is not a JSON document. *)
Inductive content :=
  | Json (v : value)
  | Text (s : pystr).

Inductive node :=
  | File (c : content)
  | Dir.

(** [path.is_file()] on an entry *)
Definition is_file (n : node) : bool :=
  match n with File _ => true | Dir => false end.

Inductive directory := KNOWLEDGE_DIR | SUMMARIES_DIR.

(** One constructor per [print] of the script. *)
Inductive event :=
  | SavingKnowledgeBase (items : nat)
  | ProcessingPage (number : Z)
  | GeminiResponse (text : pystr)
  | FoundPoints (count : nat)
  | SkippingPage
  | ErrorDecodingJSON
  | LoadingExisting
  | LoadedExisting (count : nat)
  | StartingFresh
  | SkippingAnalysis
  | GeneratingAnalysis
  | AnalysisGenerated
  | ErrorGeneratingAnalysis (e : exn)
  | SkippingSummarySave
  | SavingAnalysis (is_final : bool)
  | AnalysisSaved (name : pystr)
  | Instructions
  | Cancelled
  | MainInputDir
  | PdfFiles (names : list pystr)
  | NoPdfFiles
  | ProcessingBook (pdf_name : pystr)
  | ProcessingPages (pages_to_process : Z)
  | Progress (done total : Z)
  | FinalPage (done total : Z)
  | BookComplete (pdf_name : pystr)
  | ErrorProcessing (pdf_name : pystr) (e : exn)
  | AllComplete.

(** The entries of the two output directories (a directory that does not
    exist yet has no entry: [setup_directories] creates both before any use),
    the prompts sent to the model so far and the lines printed so far, oldest
    first. *)
Record World := {
  knowledge_dir : gmap pystr node;
  summaries_dir : gmap pystr node;
  requests : list pystr;
  console : list event
}.

Definition entries (d : directory) (w : World) : gmap pystr node :=
  match d with
  | KNOWLEDGE_DIR => knowledge_dir w
  | SUMMARIES_DIR => summaries_dir w
  end.

Definition set_entries (d : directory) (m : gmap pystr node) (w : World) : World :=
  match d with
  | KNOWLEDGE_DIR =>
      {| knowledge_dir := m; summaries_dir := summaries_dir w;
         requests := requests w; console := console w |}
  | SUMMARIES_DIR =>
      {| knowledge_dir := knowledge_dir w; summaries_dir := m;
         requests := requests w; console := console w |}
  end.

(** ** Computations *)

(** A call returns, raises, or leaves the fragment of Python that is
    modelled ([Unmodelled]: nothing is claimed about the run). *)
Inductive result (A : Type) :=
  | Ok (a : A)
  | Raise (e : exn)
  | Unmodelled.
Arguments Ok {A} a.
Arguments Raise {A} e.
Arguments Unmodelled {A}.

Definition M (A : Type) : Type := World -> result A * World.

Definition ret {A} (a : A) : M A := fun w => (Ok a, w).
Definition raise {A} (e : exn) : M A := fun w => (Raise e, w).
Definition unmodelled {A} : M A := fun w => (Unmodelled, w).

Definition bind {A B} (m : M A) (k : A -> M B) : M B :=
  fun w =>
    match m w with
    | (Ok a, w') => k a w'
    | (Raise e, w') => (Raise e, w')
    | (Unmodelled, w') => (Unmodelled, w')
    end.

(** [try: m except cls as e: handler e] *)
Definition try_except {A} (m : M A) (cls : exn) (handler : exn -> M A) : M A :=
  fun w =>
    match m w with
    | (Raise e, w') => if issubclass e cls then handler e w' else (Raise e, w')
    | r => r
    end.

(** [m] leaves the part [f] of the world as it found it, whatever its
    outcome. *)
Definition preserves {X A} (f : World -> X) (m : M A) : Prop :=
  forall w, f (m w).2 = f w.

Declare Scope py_scope.
Delimit Scope py_scope with py.
Notation "x <- m ;; k" := (bind m (fun x => k))
  (at level 100, m at next level, right associativity) : py_scope.
Notation "m ;; k" := (bind m (fun _ => k))
  (at level 100, right associativity) : py_scope.
Open Scope py_scope.

(** The world after one more line on the console. *)
Definition printed (e : event) (w : World) : World :=
  {| knowledge_dir := knowledge_dir w; summaries_dir := summaries_dir w;
     requests := requests w; console := console w ++ [e] |}.

Definition print (e : event) : M unit := fun w => (Ok tt, printed e w).

(** [path.exists()] *)
Definition path_exists (d : directory) (name : pystr) : M bool :=
  fun w => (Ok (bool_decide (is_Some (entries d w !! name))), w).

(** [open(path, 'r')] and reading the whole file. *)
Definition open_read (d : directory) (name : pystr) : M content :=
  fun w =>
    match entries d w !! name with
    | Some (File c) => (Ok c, w)
    | Some Dir => (Raise IsADirectoryError, w)
    | None => (Raise FileNotFoundError, w)
    end.

(** [open(path, 'w')] and writing the whole file. *)
Definition open_write (d : directory) (name : pystr) (c : content) : M unit :=
  fun w =>
    match entries d w !! name with
    | Some Dir => (Raise IsADirectoryError, w)
    | _ => (Ok tt, set_entries d (<[name := File c]> (entries d w)) w)
    end.

(** [old in s]: [old] occurs in [s] as a run of consecutive characters. *)
Fixpoint occurs (old s : pystr) : bool :=
  startswith old s || match s with [] => false | _ :: s' => occurs old s' end.

(** [directory.glob(pattern)]: the entries, files and directories alike,
    whose name matches.  Patterns with a bracket class or with two stars in
    a row are not modelled. *)
Definition matching (pattern : pystr) (m : gmap pystr node) : gmap pystr node :=
  filter (fun e => fnmatch pattern e.1 = true) m.

Definition glob (d : directory) (pattern : pystr) : M (gmap pystr node) :=
  fun w =>
    if occurs [LBRACKET] pattern || occurs [STAR; STAR] pattern
    then (Unmodelled, w)
    else (Ok (matching pattern (entries d w)), w).

(** ** What the script does not define *)

(** The answer of the model to one request: a response, whose [text] is
    missing when it holds no text part (reading [response.text] then raises
    [ValueError]), or an exception raised by the request itself. *)
Inductive reply :=
  | Response (text : option pystr)
  | RequestError (e : exn).

(** [fitz.open] on one input file. *)
Inductive opened :=
  | Document (pages : list pystr)
  | OpenError (e : exn).

(** The libraries, the services and the user.
    - [generate_content n prompt]: the model's answer to [prompt] when [n]
      requests were made before;
    - [json5_loads s]: the object [json5.loads] parses [s] to, [None] when it
      rejects [s], which it reports by raising [ValueError];
    - [py_str]: the builtin [str] on parsed objects;
    - [fitz_open name]: opening the input file [name], with the text of each
      page;
    - [input_books]: the names in the input directory, in listing order;
    - [strftime_now]: the formatted reading of the clock;
    - [input_enter]: [None] when the user presses Enter at the prompt,
      the exception [input()] raises otherwise;
    - [import_api_key]: [None] when [from api_key import API_KEY] succeeds. *)
Class Externals := {
  generate_content : nat -> pystr -> reply;
  json5_loads : pystr -> option value;
  py_str : value -> pystr;
  fitz_open : pystr -> opened;
  input_books : list pystr;
  strftime_now : pystr;
  input_enter : option exn;
  import_api_key : option exn
}.

(** The configuration constants of the script. *)
Record Config := {
  ANALYSIS_INTERVAL : option Z;
  TEST_PAGES : option Z
}.

(** The values the script ships with. *)
Definition shipped : Config :=
  {| ANALYSIS_INTERVAL := Some 20; TEST_PAGES := None |}.

(** ** The script *)

Section Script.

Context `{Externals}.
Variable config : Config.

(** [model.generate_content(prompt)] *)
Definition model_generate_content (prompt : pystr) : M (option pystr) :=
  fun w =>
    let w' := {| knowledge_dir := knowledge_dir w; summaries_dir := summaries_dir w;
                 requests := requests w ++ [prompt]; console := console w |} in
    match generate_content (length (requests w)) prompt with
    | Response text => (Ok text, w')
    | RequestError e => (Raise e, w')
    end.

(** [response.text] *)
Definition response_text (response : option pystr) : M pystr :=
  match response with
  | Some text => ret text
  | None => raise ValueError
  end.

(** [pdf_name.replace('.pdf', '')] *)
Definition stem (pdf_name : pystr) : pystr := replace (str ".pdf") [] pdf_name.

Definition knowledge_file (pdf_name : pystr) : pystr :=
  stem pdf_name ++ str "_knowledge.json".

(** [{"knowledge": knowledge_base}] *)
Definition knowledge_document (knowledge_base : list value) : value :=
  VDict [(str "knowledge", VList knowledge_base)].

Definition save_knowledge_base (knowledge_base : list value) (pdf_name : pystr) : M unit :=
  print (SavingKnowledgeBase (length knowledge_base)) ;;
  open_write KNOWLEDGE_DIR (knowledge_file pdf_name)
    (Json (knowledge_document knowledge_base)).

(** [result.get(key, fallback)] *)
Definition get (result : value) (key : pystr) (fallback : value) : M value :=
  match result with
  | VDict d => ret (default fallback (lookup_key key d))
  | _ => raise AttributeError
  end.

(** [len(v)] *)
Definition len (v : value) : M nat :=
  match v with
  | VStr s => ret (length s)
  | VList l => ret (length l)
  | VDict d => ret (length d)
  | _ => raise TypeError
  end.

(** [current_knowledge + knowledge] for a list [current_knowledge] *)
Definition list_add (current_knowledge : list value) (knowledge : value) : M (list value) :=
  match knowledge with
  | VList l => ret (current_knowledge ++ l)
  | _ => raise TypeError
  end.

(** [json5.loads(text)] *)
Definition json5_loads_call (text : pystr) : M value :=
  match json5_loads text with
  | Some v => ret v
  | None => raise ValueError
  end.

Definition page_prompt (page_text : pystr) : pystr :=
  str "Analyze this page as if you're studying from a book.

        SKIP content if the page contains:
        - Table of contents
        - Chapter listings
        - Index pages
        - Blank pages
        - Copyright information
        - Publishing details
        - References or bibliography
        - Acknowledgments

        DO extract knowledge if the page contains:
        - Preface content that explains important concepts
        - Actual educational content
        - Key definitions and concepts
        - Important arguments or theories
        - Examples and case studies
        - Significant findings or conclusions
        - Methodologies or frameworks
        - Critical analyses or interpretations

        For valid content:
        - Set has_content to true
        - Extract detailed, learnable knowledge points
        - Include important quotes or key statements
        - Capture examples with their context
        - Preserve technical terms and definitions

        For pages to skip:
        - Set has_content to false
        - Return empty knowledge list

        Page text: " ++ page_text ++ str "

        Return a valid JSON object with the following keys:
        - has_content (boolean): true if the page contains relevant content, false otherwise.
        - knowledge (list): A list of knowledge points extracted from the page. The list should be empty if has_content is false.
        Ensure the JSON is valid and can be parsed by Python's json.loads function.
        ".

(** [response.text.replace("```json", "").replace("```", "")] *)
Definition strip_fences (text : pystr) : pystr :=
  replace (str "```") [] (replace (str "```json") [] text).

Definition process_page (page_text : pystr) (current_knowledge : list value)
    (page_num : Z) (pdf_name : pystr) : M (list value) :=
  print (ProcessingPage (page_num + 1)) ;;
  response <- model_generate_content (page_prompt page_text) ;;
  shown <- response_text response ;;
  print (GeminiResponse shown) ;;
  updated_knowledge <-
    try_except
      (text <- response_text response ;;
       result <- json5_loads_call (strip_fences text) ;;
       has_content <- get result (str "has_content") (VBool false) ;;
       knowledge <- get result (str "knowledge") (VList []) ;;
       if truthy has_content
       then found <- len knowledge ;;
            print (FoundPoints found) ;;
            list_add current_knowledge knowledge
       else print SkippingPage ;;
            ret current_knowledge)
      JSONDecodeError
      (fun _ => print ErrorDecodingJSON ;; ret current_knowledge) ;;
  save_knowledge_base updated_knowledge pdf_name ;;
  ret updated_knowledge.

(** [json.load(f)] *)
Definition json_load (c : content) : M value :=
  match c with
  | Json v => ret v
  | Text _ => raise JSONDecodeError
  end.

(** [data['knowledge']] *)
Definition subscript (data : value) (key : pystr) : M value :=
  match data with
  | VDict d =>
      match lookup_key key d with
      | Some v => ret v
      | None => raise KeyError
      end
  | _ => raise TypeError
  end.

(** The whole document of the knowledge file, or an empty dict when there
    is no file. *)
Definition load_or_create_knowledge_base (pdf_name : pystr) : M value :=
  present <- path_exists KNOWLEDGE_DIR (knowledge_file pdf_name) ;;
  if (present : bool)
  then f <- open_read KNOWLEDGE_DIR (knowledge_file pdf_name) ;;
       json_load f
  else ret (VDict []).

(** The function is annotated to return a list; a stored [knowledge] with a
    length that is not a list (a string, a dict) is not modelled. *)
Definition load_existing_knowledge (pdf_name : pystr) : M (list value) :=
  present <- path_exists KNOWLEDGE_DIR (knowledge_file pdf_name) ;;
  if (present : bool)
  then print LoadingExisting ;;
       f <- open_read KNOWLEDGE_DIR (knowledge_file pdf_name) ;;
       data <- json_load f ;;
       knowledge <- subscript data (str "knowledge") ;;
       loaded <- len knowledge ;;
       print (LoadedExisting loaded) ;;
       match knowledge with
       | VList l => ret l
       | _ => unmodelled
       end
  else print StartingFresh ;;
       ret [].

(** ["\n".join(strings)] *)
Fixpoint join_lines (strings : list pystr) : pystr :=
  match strings with
  | [] => []
  | [s] => s
  | s :: rest => s ++ 10%N :: join_lines rest
  end.

Definition analysis_prompt (knowledge_base_str : list pystr) : pystr :=
  str "Create a comprehensive summary of the provided content in a concise but detailed way, using markdown format.

        Use markdown formatting:
        - ## for main sections
        - ### for subsections
        - Bullet points for lists
        - `code blocks` for any code or formulas
        - **bold** for emphasis
        - *italic* for terminology
        - > blockquotes for important notes

        Return only the markdown summary, nothing else. Do not say 'here is the summary' or anything like that before or after

        Analyze this content:
" ++ join_lines knowledge_base_str ++ str "

        Return only the markdown summary, nothing else. Do not include any JSON.
        ".

Definition analyze_knowledge_base (knowledge_base : list value) (pdf_name : pystr) : M pystr :=
  match knowledge_base with
  | [] => print SkippingAnalysis ;; ret []
  | _ =>
      let knowledge_base_str := map py_str knowledge_base in
      print GeneratingAnalysis ;;
      try_except
        (response <- model_generate_content (analysis_prompt knowledge_base_str) ;;
         print AnalysisGenerated ;;
         response_text response)
        ValueError
        (fun e => print (ErrorGeneratingAnalysis e) ;; ret [])
  end.

(** [for file in directory.glob("*"): if file.is_file(): file.unlink()] *)
Definition clear_files (d : directory) : M unit :=
  found <- glob d (str "*") ;;
  fun w =>
    (Ok tt,
     set_entries d (entries d w ∖ filter (fun e => is_file e.2 = true) found) w).

(** The [mkdir] calls leave the entries of the directories as they are. *)
Definition setup_directories : M unit :=
  clear_files KNOWLEDGE_DIR ;;
  clear_files SUMMARIES_DIR.

Definition summary_pattern (is_final : bool) (pdf_name : pystr) : pystr :=
  stem pdf_name ++ (if is_final then str "_final_*.md" else str "_interval_*.md").

Definition summary_file (is_final : bool) (pdf_name : pystr) (next_number : nat) : pystr :=
  stem pdf_name ++ (if is_final then str "_final_" else str "_interval_")
    ++ format_03d next_number ++ str ".md".

Definition markdown_content (summary pdf_name : pystr) : pystr :=
  str "# Book Analysis: " ++ pdf_name ++ str "
Generated on: " ++ strftime_now ++ str "

" ++ summary ++ str "

---
*Analysis generated using AI Book Analysis Tool*
".

Definition save_summary (summary : pystr) (is_final : bool) (pdf_name : pystr) : M unit :=
  match summary with
  | [] => print SkippingSummarySave
  | _ =>
      existing_summaries <- glob SUMMARIES_DIR (summary_pattern is_final pdf_name) ;;
      let next_number := (size existing_summaries + 1)%nat in
      let summary_path := summary_file is_final pdf_name next_number in
      print (SavingAnalysis is_final) ;;
      open_write SUMMARIES_DIR summary_path (Text (markdown_content summary pdf_name)) ;;
      print (AnalysisSaved summary_path)
  end.

(** The comprehension of [main] that selects the items sent to the model:
    [(isinstance(item, dict) and len(item.get("point", "").split()) <= 50)
     or (isinstance(item, str) and len(item.split()) <= 50)]. *)
Definition split_call (v : value) : M (list pystr) :=
  match v with
  | VStr s => ret (split s)
  | _ => raise AttributeError
  end.

Definition short_enough (item : value) : M bool :=
  match item with
  | VDict _ =>
      point <- get item (str "point") (VStr []) ;;
      words <- split_call point ;;
      ret (Z.of_nat (length words) <=? 50)
  | VStr s => ret (word_count s <=? 50)
  | _ => ret false
  end.

Fixpoint filter_knowledge (knowledge_base : list value) : M (list value) :=
  match knowledge_base with
  | [] => ret []
  | item :: rest =>
      keep <- short_enough item ;;
      kept <- filter_knowledge rest ;;
      ret (if (keep : bool) then item :: kept else kept)
  end.

(** Filter, analyse, save: the three lines [main] runs for an interval
    summary and for the final one. *)
Definition summarize (is_final : bool) (knowledge_base : list value) (pdf_name : pystr) : M unit :=
  filtered_knowledge_base <- filter_knowledge knowledge_base ;;
  summary <- analyze_knowledge_base filtered_knowledge_base pdf_name ;;
  save_summary summary is_final pdf_name.

(** The body of the page loop. *)
Definition page_step (pages_to_process : Z) (pdf_name : pystr) (page_num : Z)
    (page_text : pystr) (knowledge_base : list value) : M (list value) :=
  knowledge_base <- process_page page_text knowledge_base page_num pdf_name ;;
  match ANALYSIS_INTERVAL config with
  | Some interval =>
      if negb (interval =? 0)
      then
        let is_interval := (page_num + 1) mod interval =? 0 in
        let is_final_page := page_num + 1 =? pages_to_process in
        if is_interval && negb is_final_page
        then print (Progress (page_num + 1) pages_to_process) ;;
             summarize false knowledge_base pdf_name
        else ret tt
      else ret tt
  | None => ret tt
  end ;;
  (if page_num + 1 =? pages_to_process
   then print (FinalPage (page_num + 1) pages_to_process) ;;
        summarize true knowledge_base pdf_name
   else ret tt) ;;
  ret knowledge_base.

(** [for page_num in range(...)], from [page_num] on, over the text of the
    pages still to read. *)
Fixpoint page_loop (pages_to_process : Z) (pdf_name : pystr) (page_num : Z)
    (pages : list pystr) (knowledge_base : list value) : M (list value) :=
  match pages with
  | [] => ret knowledge_base
  | page_text :: rest =>
      knowledge_base <- page_step pages_to_process pdf_name page_num page_text knowledge_base ;;
      page_loop pages_to_process pdf_name (page_num + 1) rest knowledge_base
  end.

Definition pages_to_process_of (page_count : Z) : Z :=
  match TEST_PAGES config with
  | Some limit => limit
  | None => page_count
  end.

(** The pages the loop visits: [range(min(pages_to_process, page_count))]. *)
Definition pages_read (pages : list pystr) : list pystr :=
  let page_count := Z.of_nat (length pages) in
  take (Z.to_nat (Z.min (pages_to_process_of page_count) page_count)) pages.

(** The body of the [try] of the book loop. *)
Definition process_book (pdf_name : pystr) (knowledge_base : list value) : M unit :=
  match fitz_open pdf_name with
  | OpenError e => raise e
  | Document pages =>
      let pages_to_process := pages_to_process_of (Z.of_nat (length pages)) in
      print (ProcessingPages pages_to_process) ;;
      page_loop pages_to_process pdf_name 0 (pages_read pages) knowledge_base ;;
      print (BookComplete pdf_name)
  end.

(** The body of the book loop. *)
Definition book_step (pdf_name : pystr) : M unit :=
  print (ProcessingBook pdf_name) ;;
  knowledge_base <- load_existing_knowledge pdf_name ;;
  try_except (process_book pdf_name knowledge_base)
    Exception
    (fun e => print (ErrorProcessing pdf_name e)).

Fixpoint book_loop (pdf_files : list pystr) : M unit :=
  match pdf_files with
  | [] => ret tt
  | pdf_name :: rest => book_step pdf_name ;; book_loop rest
  end.

Definition get_pdf_files : M (list pystr) :=
  let pdf_files := filter (fun name => fnmatch (str "*.pdf") name = true) input_books in
  print (PdfFiles pdf_files) ;;
  ret pdf_files.

Definition call_outcome (outcome : option exn) : M unit :=
  match outcome with
  | None => ret tt
  | Some e => raise e
  end.

Definition main : M unit :=
  proceed <-
    try_except
      (print Instructions ;; call_outcome input_enter ;; ret true)
      KeyboardInterrupt
      (fun _ => print Cancelled ;; ret false) ;;
  if (proceed : bool)
  then
    print MainInputDir ;;
    setup_directories ;;
    call_outcome import_api_key ;;
    pdf_files <- get_pdf_files ;;
    match pdf_files with
    | [] => print NoPdfFiles
    | _ => book_loop pdf_files ;; print AllComplete
    end
  else ret tt.

End Script.

(** ** The comprehension of [main], read as a pure filter *)

(** A record whose [point] is present and is not a string: [.split()] fails
    on it. *)
Definition point_without_split (item : value) : bool :=
  match item with
  | VDict d =>
      match lookup_key (str "point") d with
      | Some (VStr _) | None => false
      | Some _ => true
      end
  | _ => false
  end.

(** The condition of the comprehension where it evaluates: a missing [point]
    counts as the empty string. *)
Definition kept_by_comprehension (item : value) : bool :=
  match item with
  | VStr s => word_count s <=? 50
  | VDict d =>
      match lookup_key (str "point") d with
      | Some (VStr s) => word_count s <=? 50
      | None => true
      | Some _ => false
      end
  | _ => false
  end.

(** The entries [setup_directories] leaves in a directory. *)
Definition directories_of (m : gmap pystr node) : gmap pystr node :=
  filter (fun e => is_file e.2 = false) m.

(** ** The specification's vocabulary *)

(** The definitions of this part follow the words of the specification, to
    be compared with the code above. *)

(** The textual content of a knowledge item: the string itself, or the
    [point] field of a record. *)
Definition textual_content (item : value) : option pystr :=
  match item with
  | VStr s => Some s
  | VDict d =>
      match lookup_key (str "point") d with
      | Some (VStr s) => Some s
      | _ => None
      end
  | _ => None
  end.

(** An item is eligible when its textual content has at most 50 words. *)
Definition eligible (item : value) : bool :=
  match textual_content item with
  | Some s => word_count s <=? 50
  | None => false
  end.

(** A record of the data model has a [point] field holding text. *)
Definition record_has_point (item : value) : Prop :=
  match item with
  | VDict d => exists s, lookup_key (str "point") d = Some (VStr s)
  | _ => True
  end.

(** The names of the summaries of one kind numbered 001 to [n]. *)
Definition numbered (is_final : bool) (pdf_name : pystr) (n : nat) : gset pystr :=
  list_to_set (map (summary_file is_final pdf_name) (seq 1 n)).

(** What the console shows of the summaries: the line [main] prints when
    a summary is due after a page, and the line the summary writer prints
    when it writes a file or skips an empty summary. *)
Inductive obs :=
  | Due (page : Z) (is_final : bool)
  | Wrote (is_final : bool)
  | Skipped.

Definition observe (e : event) : option obs :=
  match e with
  | Progress page _ => Some (Due page false)
  | FinalPage page _ => Some (Due page true)
  | SavingAnalysis is_final => Some (Wrote is_final)
  | SkippingSummarySave => Some Skipped
  | _ => None
  end.

Definition trace (w : World) : list obs := omap observe (console w).

(** After the page of index [i], an interval summary is due when an
    interval size is configured, [(i+1) mod interval = 0] and [i+1] is not
    the number of pages to process. *)
Definition interval_due (interval : option Z) (total i : Z) : bool :=
  match interval with
  | Some size => negb (size =? 0) && ((i + 1) mod size =? 0) && negb (i + 1 =? total)
  | None => false
  end.

(** A final summary is due after the last page: [i+1] is the number of pages
    to process. *)
Definition final_due (total i : Z) : bool := i + 1 =? total.

(** The summaries due after the page of index [i], as (page number, final?). *)
Definition due (interval : option Z) (total i : Z) : list (Z * bool) :=
  (if interval_due interval total i then [(i + 1, false)] else [])
  ++ (if final_due total i then [(i + 1, true)] else []).

(** The summaries due over [count] pages from index [i] on. *)
Fixpoint schedule (interval : option Z) (total i : Z) (count : nat) : list (Z * bool) :=
  match count with
  | O => []
  | S count' => due interval total i ++ schedule interval total (i + 1) count'
  end.

(** What the console shows when the writer is called for each scheduled
    summary; [written] tells, call by call, whether a file was written. *)
Fixpoint expected (steps : list (Z * bool)) (written : list bool) : list obs :=
  match steps, written with
  | (page, is_final) :: steps', wrote :: written' =>
      Due page is_final :: (if (wrote : bool) then Wrote is_final else Skipped)
        :: expected steps' written'
  | _, _ => []
  end.

(** The page loop in the words of the specification: after each page has
    been analysed, the summaries due after that page are made one after the
    other, the interval one first.  For each of them [main] prints its
    line, then runs the summariser on the filtered base and the summary
    writer ([summarize]). *)
Section Reference.

Context `{Externals}.

Fixpoint summaries_due (total : Z) (pdf_name : pystr) (knowledge_base : list value)
    (steps : list (Z * bool)) : M unit :=
  match steps with
  | [] => ret tt
  | (page, is_final) :: steps' =>
      print (if (is_final : bool) then FinalPage page total else Progress page total) ;;
      summarize is_final knowledge_base pdf_name ;;
      summaries_due total pdf_name knowledge_base steps'
  end.

Fixpoint scheduled_loop (interval : option Z) (total : Z) (pdf_name : pystr)
    (i : Z) (pages : list pystr) (knowledge_base : list value) : M (list value) :=
  match pages with
  | [] => ret knowledge_base
  | page_text :: rest =>
      knowledge_base <- process_page page_text knowledge_base i pdf_name ;;
      summaries_due total pdf_name knowledge_base (due interval total i) ;;
      scheduled_loop interval total pdf_name (i + 1) rest knowledge_base
  end.

(** Pages analysed one after the other, from the index [i] on, with no
    summary in between. *)
Fixpoint process_pages (pdf_name : pystr) (i : Z) (pages : list pystr)
    (knowledge_base : list value) : M (list value) :=
  match pages with
  | [] => ret knowledge_base
  | page_text :: rest =>
      knowledge_base <- process_page page_text knowledge_base i pdf_name ;;
      process_pages pdf_name (i + 1) rest knowledge_base
  end.

End Reference.

(** The entries of a summaries directory that match the two patterns of a
    document are its interval summaries numbered 001 to [intervals] and its
    final summaries numbered 001 to [finals]. *)
Definition in_sequence (pdf_name : pystr) (m : gmap pystr node)
    (intervals finals : nat) : Prop :=
  dom (matching (summary_pattern false pdf_name) m) = numbered false pdf_name intervals
  /\ dom (matching (summary_pattern true pdf_name) m) = numbered true pdf_name finals.

(** From [m] to [m'] the summaries of a document only grow, in sequence:
    when those of [m] are in sequence, every entry of [m] is in [m'] as it
    was and the summaries of [m'] are in sequence, from the same numbers
    on. *)
Definition grows_in_sequence (pdf_name : pystr) (m m' : gmap pystr node) : Prop :=
  forall intervals finals,
    in_sequence pdf_name m intervals finals ->
    m ⊆ m'
    /\ exists more_intervals more_finals,
         in_sequence pdf_name m' (intervals + more_intervals) (finals + more_finals).

(** ** Worked runs *)

Module Demo.

(** A model that answers every page with one knowledge point and every
    summary request with a short markdown text; the parser knows that one
    answer. *)
Definition page_answer : pystr :=
  str "```json
{has_content: true, knowledge: ['a fact']}
```".

Definition parsed_answer : value :=
  VDict [(str "has_content", VBool true); (str "knowledge", VList [VStr (str "a fact")])].

(** The answer for a page to skip. *)
Definition skip_answer : pystr := str "{has_content: false, knowledge: []}".

Definition parsed_skip : list (pystr * value) :=
  [(str "has_content", VBool false); (str "knowledge", VList [])].

Definition is_page_prompt (prompt : pystr) : bool :=
  startswith (str "Analyze this page") prompt.

#[local] Instance externals : Externals := {|
  generate_content _ prompt :=
    Response (Some (if is_page_prompt prompt then page_answer else str "## Summary"));
  json5_loads s :=
    if bool_decide (s = strip_fences page_answer) then Some parsed_answer
    else if bool_decide (s = skip_answer) then Some (VDict parsed_skip)
    else None;
  py_str v := match v with VStr s => s | _ => str "{...}" end;
  fitz_open name :=
    if bool_decide (name = str "book.pdf")
    then Document (repeat (str "page text") 25)
    else OpenError FileDataError;
  input_books := [str "broken.pdf"; str "book.pdf"; str "notes.txt"];
  strftime_now := str "2025-01-01 00:00:00";
  input_enter := None;
  import_api_key := None
|}.

(** The same environment with another model. *)
Definition with_model (model : nat -> pystr -> reply) : Externals := {|
  generate_content := model;
  json5_loads := json5_loads (Externals := externals);
  py_str := py_str (Externals := externals);
  fitz_open := fitz_open (Externals := externals);
  input_books := input_books (Externals := externals);
  strftime_now := strftime_now (Externals := externals);
  input_enter := None;
  import_api_key := None
|}.

(** The same environment with other answers of the parser, other input
    files, another user and another key module. *)
Definition variant (model : nat -> pystr -> reply) (parser : pystr -> option value)
    (books : list pystr) (enter key : option exn) : Externals := {|
  generate_content := model;
  json5_loads := parser;
  py_str := py_str (Externals := externals);
  fitz_open := fitz_open (Externals := externals);
  input_books := books;
  strftime_now := strftime_now (Externals := externals);
  input_enter := enter;
  import_api_key := key
|}.

Definition answers (text : pystr) : nat -> pystr -> reply :=
  fun _ _ => Response (Some text).

(** The user presses Ctrl+C at the prompt. *)
Definition cancelling : Externals :=
  variant (answers page_answer) (fun _ => None) [str "book.pdf"] (Some KeyboardInterrupt) None.

(** The input is closed: [input()] raises [EOFError]. *)
Definition closed_input : Externals :=
  variant (answers page_answer) (fun _ => None) [str "book.pdf"] (Some EOFError) None.

(** There is no [api_key] module. *)
Definition no_key : Externals :=
  variant (answers page_answer) (fun _ => None) [str "book.pdf"] None (Some ImportError).

(** The input directory holds no PDF. *)
Definition no_books : Externals :=
  variant (answers page_answer) (fun _ => None) [str "notes.txt"; str "SCAN.PDF"] None None.

(** The model answers with an array. *)
Definition array_answer : Externals :=
  variant (answers (str "['a fact']")) (fun _ => Some (VList [VStr (str "a fact")]))
    [str "book.pdf"] None None.

(** The model puts a string where the list of points goes. *)
Definition text_knowledge : list (pystr * value) :=
  [(str "has_content", VBool true); (str "knowledge", VStr (str "a fact"))].

Definition string_answer : Externals :=
  variant (answers (str "{has_content: true, knowledge: 'a fact'}"))
    (fun _ => Some (VDict text_knowledge)) [str "book.pdf"] None None.

(** Files left by an earlier run, beside a directory. *)
Definition leftovers : World :=
  {| knowledge_dir := {[ str "book_knowledge.json" := File (Json (VDict []));
                         str "archive" := Dir ]};
     summaries_dir := {[ str "book_final_001.md" := File (Text (str "old summary")) ]};
     requests := []; console := [] |}.

(** The service refuses every request (quota, network, server error). *)
Definition outage : Externals := with_model (fun _ _ => RequestError GoogleAPIError).

(** Every response comes back without a text part. *)
Definition blocked : Externals := with_model (fun _ _ => Response None).

(** The model finds nothing to keep on any page. *)
Definition skipping : Externals := with_model (fun _ _ => Response (Some skip_answer)).

(** The model answers in prose. *)
Definition chatty : Externals :=
  with_model (fun _ _ => Response (Some (str "Sorry, this page is blank."))).

Definition empty_world : World :=
  {| knowledge_dir := ∅; summaries_dir := ∅; requests := []; console := [] |}.

Definition book : pystr := str "book.pdf".

Definition fact : value := VStr (str "a fact").

(** The world when a run of the shipped configuration is stopped after the
    page of index 10 of the 25 pages of the book. *)
Definition interrupted : World :=
  (page_loop (H := externals) shipped 25 book 0 (repeat (str "page text") 11) []
     empty_world).2.

(** A knowledge directory where the name of the first book's file is taken
    by a directory. *)
Definition squatted : World :=
  {| knowledge_dir := {[ str "broken_knowledge.json" := Dir ]};
     summaries_dir := ∅; requests := []; console := [] |}.

(** A summaries directory that holds the second interval summary of the
    book but not the first. *)
Definition gap : World :=
  {| knowledge_dir := ∅;
     summaries_dir := {[ str "book_interval_002.md" := File (Text (str "old summary")) ]};
     requests := []; console := [] |}.

(** Two books in the input directory, the name of the first one
    continuing the name of the second with [_interval_]; the second has
    65 pages, enough for three interval summaries. *)
Definition two_volumes : Externals := {|
  generate_content := generate_content (Externals := externals);
  json5_loads := json5_loads (Externals := externals);
  py_str := py_str (Externals := externals);
  fitz_open name :=
    if bool_decide (name = str "book_interval_vol2.pdf")
    then Document (repeat (str "page text") 25)
    else if bool_decide (name = str "book.pdf")
         then Document (repeat (str "page text") 65)
         else OpenError FileDataError;
  input_books := [str "book_interval_vol2.pdf"; str "book.pdf"];
  strftime_now := strftime_now (Externals := externals);
  input_enter := None;
  import_api_key := None
|}.

Definition names_book_and_load (e : event) : bool :=
  match e with
  | ProcessingBook _ | LoadingExisting | LoadedExisting _ | StartingFresh => true
  | _ => false
  end.

End Demo.

(** ** Properties *)

Arguments str : simpl never.
Arguments page_prompt : simpl never.
Arguments analysis_prompt : simpl never.
Arguments markdown_content : simpl never.
Arguments strip_fences : simpl never.
Arguments knowledge_file : simpl never.
Arguments summary_pattern : simpl never.
Arguments summary_file : simpl never.
Arguments stem : simpl never.

Ltac run :=
  unfold save_knowledge_base, model_generate_content, response_text,
    json5_loads_call, get, len, list_add, open_write, open_read, path_exists,
    json_load, subscript, call_outcome,
    try_except, bind, print, printed, ret, raise, unmodelled in *;
  simpl in *.

(** *** Reading a run backwards *)

Section Inversion.

Context {A B : Type}.

Lemma bind_Ok (m : M A) (k : A -> M B) (w : World) (b : B) (w' : World) :
  bind m k w = (Ok b, w') ->
  exists a w1, m w = (Ok a, w1) /\ k a w1 = (Ok b, w').
Proof.
  unfold bind. destruct (m w) as [[a|e|] w1]; intros Hrun; try discriminate.
  by exists a, w1.
Qed.

Lemma try_except_Ok (m : M A) (cls : exn) (handler : exn -> M A)
    (w : World) (a : A) (w' : World) :
  try_except m cls handler w = (Ok a, w') ->
  m w = (Ok a, w')
  \/ exists e w1, m w = (Raise e, w1) /\ issubclass e cls = true
                  /\ handler e w1 = (Ok a, w').
Proof.
  unfold try_except. destruct (m w) as [[a1|e|] w1]; intros Hrun; try discriminate.
  - by left.
  - destruct (issubclass e cls) eqn:Hsub; [|discriminate].
    right. by exists e, w1.
Qed.

Lemma bind_Raise (m : M A) (k : A -> M B) (w : World) (e : exn) (w' : World) :
  bind m k w = (Raise e, w') ->
  m w = (Raise e, w') \/ exists a w1, m w = (Ok a, w1) /\ k a w1 = (Raise e, w').
Proof.
  unfold bind. destruct (m w) as [[a|e1|] w1]; intros Hrun; try discriminate.
  - right. by exists a, w1.
  - left. by inversion Hrun.
Qed.

Lemma try_except_Raise (m : M A) (cls : exn) (handler : exn -> M A)
    (w : World) (e : exn) (w' : World) :
  try_except m cls handler w = (Raise e, w') ->
  (m w = (Raise e, w') /\ issubclass e cls = false)
  \/ exists e0 w1, m w = (Raise e0, w1) /\ issubclass e0 cls = true
                   /\ handler e0 w1 = (Raise e, w').
Proof.
  unfold try_except. destruct (m w) as [[a1|e0|] w1]; intros Hrun; try discriminate.
  destruct (issubclass e0 cls) eqn:Hsub.
  - right. by exists e0, w1.
  - left. by inversion Hrun; subst.
Qed.

Lemma ret_Ok (a a' : A) (w w' : World) :
  ret a w = (Ok a', w') -> a' = a /\ w' = w.
Proof. unfold ret. by intros [= -> ->]. Qed.

End Inversion.

(** *** Equal runs *)

Lemma bind_ext {A B} (m : M A) (k1 k2 : A -> M B) (w : World) :
  (forall a w1, k1 a w1 = k2 a w1) -> bind m k1 w = bind m k2 w.
Proof. intros Hk. unfold bind. destruct (m w) as [[a|e|] w1]; auto. Qed.

Lemma bind_run {A B} (m : M A) (k : A -> M B) (w : World) (a : A) (w1 : World) :
  m w = (Ok a, w1) -> bind m k w = k a w1.
Proof. unfold bind. by intros ->. Qed.

Lemma bind_assoc {A B C} (m : M A) (k1 : A -> M B) (k2 : B -> M C) (w : World) :
  bind (bind m k1) k2 w = bind m (fun a => bind (k1 a) k2) w.
Proof. unfold bind. by destruct (m w) as [[a|e|] w1]. Qed.

Lemma bind_ret_l {A B} (a : A) (k : A -> M B) (w : World) :
  bind (ret a) k w = k a w.
Proof. done. Qed.

Lemma bind_ext_l {A B} (m1 m2 : M A) (k : A -> M B) (w : World) :
  m1 w = m2 w -> bind m1 k w = bind m2 k w.
Proof. unfold bind. by intros ->. Qed.

Lemma open_write_Ok (d : directory) (name : pystr) (c : content)
    (w : World) (u : unit) (w' : World) :
  open_write d name c w = (Ok u, w') ->
  entries d w !! name <> Some Dir
  /\ w' = set_entries d (<[name := File c]> (entries d w)) w.
Proof.
  unfold open_write.
  destruct (entries d w !! name) as [[c'|]|]; intros Hrun; inversion Hrun; done.
Qed.

(** *** Parts of the world a computation leaves alone *)

Section Preserves.

Context {X : Type} (f : World -> X).

Lemma preserves_ret {A} (a : A) : preserves f (ret a).
Proof. done. Qed.

Lemma preserves_raise {A} (e : exn) : preserves f (raise (A := A) e).
Proof. done. Qed.

Lemma preserves_unmodelled {A} : preserves f (unmodelled (A := A)).
Proof. done. Qed.

Lemma preserves_bind {A B} (m : M A) (k : A -> M B) :
  preserves f m -> (forall a, preserves f (k a)) -> preserves f (bind m k).
Proof.
  intros Hm Hk w. unfold bind. specialize (Hm w).
  destruct (m w) as [[a|e|] w1]; simpl in *; try done.
  by rewrite Hk.
Qed.

Lemma preserves_try_except {A} (m : M A) (cls : exn) (handler : exn -> M A) :
  preserves f m -> (forall e, preserves f (handler e)) -> preserves f (try_except m cls handler).
Proof.
  intros Hm Hh w. unfold try_except. specialize (Hm w).
  destruct (m w) as [[a|e|] w1]; simpl in *; try done.
  destruct (issubclass e cls); simpl; [by rewrite Hh | done].
Qed.

Lemma preserves_run {A} (m : M A) (w : World) (r : result A) (w' : World) :
  preserves f m -> m w = (r, w') -> f w' = f w.
Proof. intros Hm Hrun. specialize (Hm w). by rewrite Hrun in Hm. Qed.

End Preserves.

Lemma trace_printed (e : event) (w : World) :
  trace (printed e w) = trace w ++ from_option (fun o => [o]) [] (observe e).
Proof.
  unfold trace, printed. simpl. rewrite omap_app. simpl.
  by destruct (observe e).
Qed.

Lemma trace_print_silent (e : event) :
  observe e = None -> preserves trace (print e).
Proof. intros He w. simpl. rewrite trace_printed, He. apply app_nil_r. Qed.

Lemma knowledge_dir_print (e : event) : preserves knowledge_dir (print e).
Proof. done. Qed.

Lemma trace_open_write (d : directory) (name : pystr) (c : content) :
  preserves trace (open_write d name c).
Proof. intros w. unfold open_write. repeat case_match; by destruct d. Qed.

Lemma knowledge_dir_open_write (name : pystr) (c : content) :
  preserves knowledge_dir (open_write SUMMARIES_DIR name c).
Proof. intros w. unfold open_write. by repeat case_match. Qed.

Lemma preserves_glob {X} (f : World -> X) (d : directory) (pattern : pystr) :
  preserves f (glob d pattern).
Proof. intros w. unfold glob. by case_match. Qed.

Lemma preserves_path_exists {X} (f : World -> X) (d : directory) (name : pystr) :
  preserves f (path_exists d name).
Proof. done. Qed.

Lemma preserves_open_read {X} (f : World -> X) (d : directory) (name : pystr) :
  preserves f (open_read d name).
Proof. intros w. unfold open_read. by repeat case_match. Qed.

(** Loading returns the list a knowledge file holds. *)
Lemma load_existing_knowledge_saved (pdf_name : pystr) (knowledge_base : list value)
    (w : World) :
  knowledge_dir w !! knowledge_file pdf_name
    = Some (File (Json (knowledge_document knowledge_base))) ->
  load_existing_knowledge pdf_name w
  = (Ok knowledge_base,
     printed (LoadedExisting (length knowledge_base)) (printed LoadingExisting w)).
Proof.
  intros Hfile. unfold load_existing_knowledge, bind, path_exists, print. simpl.
  rewrite Hfile. rewrite bool_decide_eq_true_2 by eauto.
  unfold open_read. simpl. rewrite Hfile. simpl.
  unfold knowledge_document. simpl. done.
Qed.

(** The comprehension of [main], item by item and over a list. *)
Lemma short_enough_run (item : value) (w : World) :
  short_enough item w
  = if point_without_split item then (Raise AttributeError, w)
    else (Ok (kept_by_comprehension item), w).
Proof.
  destruct item as [| | | |s|l|d]; try done.
  unfold short_enough, point_without_split, kept_by_comprehension, get, bind, ret.
  simpl. destruct (lookup_key (str "point") d) as [[]|]; done.
Qed.

Lemma filter_knowledge_run (knowledge_base : list value) (w : World) :
  filter_knowledge knowledge_base w
  = if existsb point_without_split knowledge_base
    then (Raise AttributeError, w)
    else (Ok (filter (fun item => kept_by_comprehension item = true) knowledge_base), w).
Proof.
  induction knowledge_base as [|item rest IH]; [done|].
  cbn [filter_knowledge existsb]. unfold bind at 1. rewrite short_enough_run.
  destruct (point_without_split item); [done|]. simpl.
  unfold bind at 1. rewrite IH.
  destruct (existsb point_without_split rest); [done|].
  unfold ret. rewrite filter_cons.
  destruct (kept_by_comprehension item); by case_decide.
Qed.

(** What the comprehension keeps, in the words of the specification: the
    eligible items, and the records that have no [point] at all. *)
Lemma kept_by_comprehension_eligible (item : value) :
  kept_by_comprehension item = true
  <-> eligible item = true
      \/ exists d, item = VDict d /\ lookup_key (str "point") d = None.
Proof.
  unfold kept_by_comprehension, eligible, textual_content.
  destruct item as [| | | |s|l|d]; try (split; [done|by intros [?|(? & ? & ?)]]).
  - split; [by left|]. by intros [?|(? & ? & ?)].
  - destruct (lookup_key (str "point") d) as [[]|] eqn:Hpoint;
      (split; [intros ?; first [by left | by right; eexists]|]);
      intros [?|(? & ? & ?)]; simplify_eq; done.
Qed.

Section Page.

Context `{Externals}.

(** C6: summarising an empty knowledge list sends nothing to the model and
    returns the empty string; the summary writer given the empty string
    leaves both directories as they are. *)
Theorem empty_summary_is_skipped (pdf_name : pystr) (is_final : bool) (w : World) :
  analyze_knowledge_base [] pdf_name w
    = (Ok [], {| knowledge_dir := knowledge_dir w; summaries_dir := summaries_dir w;
                 requests := requests w; console := console w ++ [SkippingAnalysis] |})
  /\ save_summary [] is_final pdf_name w
    = (Ok tt, {| knowledge_dir := knowledge_dir w; summaries_dir := summaries_dir w;
                 requests := requests w; console := console w ++ [SkippingSummarySave] |}).
Proof. split; reflexivity. Qed.

(** C7, as amended: when the request for a summary fails with a
    [ValueError] (the request raises one, or the response holds no text and
    reading it raises one), the summariser returns the empty string and
    leaves both directories as they are; any other exception of the request
    leaves the summariser. *)
Theorem analysis_value_error_recovered (knowledge_base : list value)
    (pdf_name : pystr) (w : World) (e : exn) :
  knowledge_base <> [] ->
  let answer :=
    generate_content (length (requests w)) (analysis_prompt (map py_str knowledge_base)) in
  answer = RequestError e \/ (answer = Response None /\ e = ValueError) ->
  (issubclass e ValueError = true ->
   exists w',
     analyze_knowledge_base knowledge_base pdf_name w = (Ok [], w')
     /\ knowledge_dir w' = knowledge_dir w
     /\ summaries_dir w' = summaries_dir w
     /\ last (console w') = Some (ErrorGeneratingAnalysis e))
  /\ (issubclass e ValueError = false ->
      exists w',
        analyze_knowledge_base knowledge_base pdf_name w = (Raise e, w')
        /\ knowledge_dir w' = knowledge_dir w
        /\ summaries_dir w' = summaries_dir w).
Proof.
  intros Hne answer Hfail. subst answer.
  destruct knowledge_base as [|item rest]; [done|].
  unfold analyze_knowledge_base. run.
  destruct Hfail as [-> | [-> ->]]; simpl.
  - split; intros ->; eexists; repeat split; simpl; try reflexivity.
    by rewrite last_snoc.
  - split; [|done]. intros _. eexists; repeat split; simpl; try reflexivity.
    by rewrite last_snoc.
Qed.

(** C2: a response the parser rejects makes [process_page] raise
    [ValueError]: the handler for [json.JSONDecodeError] does not catch it,
    and the knowledge file is not written. *)
Theorem process_page_unparsable_raises (page_text : pystr)
    (current_knowledge : list value) (page_num : Z) (pdf_name : pystr)
    (w : World) (text : pystr) :
  generate_content (length (requests w)) (page_prompt page_text) = Response (Some text) ->
  json5_loads (strip_fences text) = None ->
  process_page page_text current_knowledge page_num pdf_name w
  = (Raise ValueError,
     {| knowledge_dir := knowledge_dir w; summaries_dir := summaries_dir w;
        requests := requests w ++ [page_prompt page_text];
        console := console w ++ [ProcessingPage (page_num + 1); GeminiResponse text] |}).
Proof.
  intros Hmodel Hparse. unfold process_page. run.
  rewrite Hmodel. simpl. rewrite Hparse. simpl.
  by rewrite <- app_assoc.
Qed.

(** The same happens when the response parses to something that is not an
    object: [result.get] raises [AttributeError]. *)
Lemma process_page_not_an_object_raises (page_text : pystr)
    (current_knowledge : list value) (page_num : Z) (pdf_name : pystr)
    (w : World) (text : pystr) (l : list value) :
  generate_content (length (requests w)) (page_prompt page_text) = Response (Some text) ->
  json5_loads (strip_fences text) = Some (VList l) ->
  (process_page page_text current_knowledge page_num pdf_name w).1 = Raise AttributeError.
Proof.
  intros Hmodel Hparse. unfold process_page. run.
  rewrite Hmodel. simpl. by rewrite Hparse.
Qed.

(** C10: whenever [process_page] returns, the list it returns starts with
    the list it was given and is at least as long. *)
Theorem process_page_extends (page_text : pystr) (current_knowledge : list value)
    (page_num : Z) (pdf_name : pystr) (w : World)
    (updated_knowledge : list value) (w' : World) :
  process_page page_text current_knowledge page_num pdf_name w = (Ok updated_knowledge, w') ->
  (exists new_items, updated_knowledge = current_knowledge ++ new_items)
  /\ (length current_knowledge <= length updated_knowledge)%nat.
Proof.
  intros Hrun.
  assert (exists new_items, updated_knowledge = current_knowledge ++ new_items) as Hext.
  { unfold process_page in Hrun.
    apply bind_Ok in Hrun as (? & w1 & _ & Hrun).
    apply bind_Ok in Hrun as (response & w2 & _ & Hrun).
    apply bind_Ok in Hrun as (shown & w3 & _ & Hrun).
    apply bind_Ok in Hrun as (? & w4 & _ & Hrun).
    apply bind_Ok in Hrun as (updated & w5 & Htry & Hrun).
    apply bind_Ok in Hrun as (? & w6 & _ & Hrun).
    apply ret_Ok in Hrun as [-> _].
    apply try_except_Ok in Htry as [Hbody | (e & w7 & _ & _ & Hhandler)].
    - apply bind_Ok in Hbody as (text & w7 & _ & Hbody).
      apply bind_Ok in Hbody as (result & w8 & _ & Hbody).
      apply bind_Ok in Hbody as (has_content & w9 & _ & Hbody).
      apply bind_Ok in Hbody as (knowledge & w10 & _ & Hbody).
      destruct (truthy has_content).
      + apply bind_Ok in Hbody as (found & w11 & _ & Hbody).
        apply bind_Ok in Hbody as (? & w12 & _ & Hbody).
        destruct knowledge; try discriminate.
        apply ret_Ok in Hbody as [-> _]. eauto.
      + apply bind_Ok in Hbody as (? & w11 & _ & Hbody).
        apply ret_Ok in Hbody as [-> _]. exists []. by rewrite app_nil_r.
    - apply bind_Ok in Hhandler as (? & w8 & _ & Hhandler).
      apply ret_Ok in Hhandler as [-> _]. exists []. by rewrite app_nil_r. }
  split; [done|]. destruct Hext as [new_items ->]. rewrite length_app. lia.
Qed.

(** What [process_page] leaves on disk when it returns: the list it
    returns, under the [knowledge] key of the document's file. *)
Lemma process_page_saves (page_text : pystr) (current_knowledge : list value)
    (page_num : Z) (pdf_name : pystr) (w : World)
    (updated_knowledge : list value) (w' : World) :
  process_page page_text current_knowledge page_num pdf_name w = (Ok updated_knowledge, w') ->
  knowledge_dir w' !! knowledge_file pdf_name
  = Some (File (Json (knowledge_document updated_knowledge))).
Proof.
  intros Hrun. unfold process_page in Hrun.
  apply bind_Ok in Hrun as (? & w1 & _ & Hrun).
  apply bind_Ok in Hrun as (response & w2 & _ & Hrun).
  apply bind_Ok in Hrun as (shown & w3 & _ & Hrun).
  apply bind_Ok in Hrun as (? & w4 & _ & Hrun).
  apply bind_Ok in Hrun as (updated & w5 & _ & Hrun).
  apply bind_Ok in Hrun as (? & w6 & Hsave & Hrun).
  apply ret_Ok in Hrun as [-> ->].
  unfold save_knowledge_base in Hsave.
  apply bind_Ok in Hsave as (? & w7 & _ & Hsave).
  apply open_write_Ok in Hsave as [_ ->]. simpl. apply lookup_insert_eq.
Qed.

(** C5: when the parsed response is an object whose [has_content] is false
    (or missing, or any falsy value), [process_page] returns the list it was
    given, the document's file holds [{"knowledge": that list}], and loading
    the document's knowledge from the disk it leaves returns that list. *)
Theorem process_page_no_content (page_text : pystr) (current_knowledge : list value)
    (page_num : Z) (pdf_name : pystr) (w : World)
    (text : pystr) (d : list (pystr * value)) :
  generate_content (length (requests w)) (page_prompt page_text) = Response (Some text) ->
  json5_loads (strip_fences text) = Some (VDict d) ->
  truthy (default (VBool false) (lookup_key (str "has_content") d)) = false ->
  knowledge_dir w !! knowledge_file pdf_name <> Some Dir ->
  exists w',
    process_page page_text current_knowledge page_num pdf_name w = (Ok current_knowledge, w')
    /\ knowledge_dir w' !! knowledge_file pdf_name
       = Some (File (Json (VDict [(str "knowledge", VList current_knowledge)])))
    /\ load_existing_knowledge pdf_name w'
       = (Ok current_knowledge,
          printed (LoadedExisting (length current_knowledge)) (printed LoadingExisting w'))
    /\ summaries_dir w' = summaries_dir w.
Proof.
  intros Hmodel Hparse Hfalse Hfile. unfold process_page. run.
  rewrite Hmodel. simpl. rewrite Hparse. simpl.
  rewrite Hfalse. simpl.
  destruct (knowledge_dir w !! knowledge_file pdf_name) as [[c|]|] eqn:Hnode;
    try done;
    (eexists; split; [reflexivity|]; simpl; split; [apply lookup_insert_eq|];
     split; [|done];
     apply load_existing_knowledge_saved; simpl; apply lookup_insert_eq).
Qed.

(** X6: The other branch: a truthy [has_content] with a list under [knowledge]
    appends that list and saves the result: the document's file holds
    [{"knowledge": the longer list}] and loading from that disk returns it. *)
Lemma process_page_appends (page_text : pystr) (current_knowledge : list value)
    (page_num : Z) (pdf_name : pystr) (w : World)
    (text : pystr) (d : list (pystr * value)) (new_items : list value) :
  generate_content (length (requests w)) (page_prompt page_text) = Response (Some text) ->
  json5_loads (strip_fences text) = Some (VDict d) ->
  truthy (default (VBool false) (lookup_key (str "has_content") d)) = true ->
  default (VList []) (lookup_key (str "knowledge") d) = VList new_items ->
  knowledge_dir w !! knowledge_file pdf_name <> Some Dir ->
  exists w',
    process_page page_text current_knowledge page_num pdf_name w
      = (Ok (current_knowledge ++ new_items), w')
    /\ knowledge_dir w' !! knowledge_file pdf_name
       = Some (File (Json (knowledge_document (current_knowledge ++ new_items))))
    /\ knowledge_dir w' !! knowledge_file pdf_name
       = Some (File (Json (VDict [(str "knowledge", VList (current_knowledge ++ new_items))])))
    /\ load_existing_knowledge pdf_name w'
       = (Ok (current_knowledge ++ new_items),
          printed (LoadedExisting (length (current_knowledge ++ new_items)))
            (printed LoadingExisting w')).
Proof.
  intros Hmodel Hparse Htrue Hlist Hfile. unfold process_page. run.
  rewrite Hmodel. simpl. rewrite Hparse. simpl.
  rewrite Htrue, Hlist. simpl.
  destruct (knowledge_dir w !! knowledge_file pdf_name) as [[c|]|] eqn:Hnode;
    try done;
    (eexists; split; [reflexivity|]; simpl; split; [apply lookup_insert_eq|];
     split; [apply lookup_insert_eq|];
     apply load_existing_knowledge_saved; simpl; apply lookup_insert_eq).
Qed.

(** C4, as amended: on a knowledge list whose records carry a textual
    [point], the filter applied before summarising returns exactly the
    eligible items, those whose textual content has at most 50 words, in
    their order.  On any list in which no record has a [point] that is not
    text, it returns, in their order, the eligible items and the records
    without a [point], whatever they hold.  A record whose [point] is not
    text makes it raise [AttributeError]. *)
Theorem filter_knowledge_eligible (knowledge_base : list value) (w : World) :
  (Forall record_has_point knowledge_base ->
   let kept := filter (fun item => eligible item = true) knowledge_base in
   filter_knowledge knowledge_base w = (Ok kept, w)
   /\ (forall item, item ∈ kept <-> item ∈ knowledge_base /\ eligible item = true)
   /\ sublist kept knowledge_base)
  /\ (existsb point_without_split knowledge_base = false ->
      exists kept,
        filter_knowledge knowledge_base w = (Ok kept, w)
        /\ sublist kept knowledge_base
        /\ forall item,
             item ∈ kept
             <-> item ∈ knowledge_base
                 /\ (eligible item = true
                     \/ exists d, item = VDict d /\ lookup_key (str "point") d = None))
  /\ (existsb point_without_split knowledge_base = true ->
      filter_knowledge knowledge_base w = (Raise AttributeError, w)).
Proof.
  split; [|split].
  - intros Hitems kept. split; [|split].
    + subst kept. induction Hitems as [|item rest Hitem _ IH]; [done|].
      cbn [filter_knowledge]. unfold bind at 1.
      assert (short_enough item w = (Ok (eligible item), w)) as ->.
      { destruct item as [| | | |s|l|d]; try done.
        destruct Hitem as [s Hs]. unfold short_enough, eligible, textual_content.
        unfold get, bind, ret. simpl. rewrite Hs. done. }
      unfold bind at 1. rewrite IH. unfold ret.
      rewrite filter_cons. destruct (eligible item); by case_decide.
    + intros item. subst kept. rewrite list_elem_of_filter. tauto.
    + apply sublist_filter.
  - intros Hpoints. eexists. rewrite filter_knowledge_run, Hpoints.
    split; [reflexivity|]. split; [apply sublist_filter|].
    intros item. rewrite list_elem_of_filter, kept_by_comprehension_eligible. tauto.
  - intros Hpoints. by rewrite filter_knowledge_run, Hpoints.
Qed.

End Page.

(** *** The page loop and the summaries *)

Ltac preserve_step :=
  first
    [ apply preserves_ret | apply preserves_raise | apply preserves_unmodelled
    | apply preserves_glob | apply preserves_path_exists | apply preserves_open_read
    | apply trace_open_write | apply knowledge_dir_open_write
    | apply knowledge_dir_print
    | apply trace_print_silent; reflexivity
    | apply preserves_bind; [|intros ?]
    | apply preserves_try_except; [|intros ?]
    | case_match ].

Ltac preserve := repeat preserve_step.

Ltac frame_step :=
  first
    [ apply preserves_ret | apply preserves_raise | apply preserves_unmodelled
    | apply preserves_glob | apply preserves_path_exists | apply preserves_open_read
    | apply preserves_bind; [|intros ?]
    | apply preserves_try_except; [|intros ?]
    | solve [intros ?; unfold print, printed, open_write, set_entries;
             repeat case_match; reflexivity]
    | case_match ].

Ltac frame := repeat frame_step.

Lemma print_run (e : event) (w : World) (r : result unit) (w' : World) :
  print e w = (r, w') -> r = Ok tt /\ w' = printed e w.
Proof. unfold print. by intros [= <- <-]. Qed.

Lemma expected_app (s1 s2 : list (Z * bool)) (w1 w2 : list bool) :
  length w1 = length s1 ->
  expected (s1 ++ s2) (w1 ++ w2) = expected s1 w1 ++ expected s2 w2.
Proof.
  revert w1. induction s1 as [|[page is_final] s1 IH]; intros [|wrote w1] Hlen;
    try done.
  simpl in *. f_equal. f_equal. apply IH. lia.
Qed.

Section Book.

Context `{Externals}.
Variable config : Config.

Lemma filter_knowledge_preserves {X} (f : World -> X) (knowledge_base : list value) :
  preserves f (filter_knowledge knowledge_base).
Proof.
  induction knowledge_base as [|item rest IH]; simpl; [done|].
  apply preserves_bind; [|intros keep; apply preserves_bind; [done|by intros]].
  unfold short_enough, get, split_call. preserve.
Qed.

Lemma model_generate_content_preserves {X} (f : World -> X) (prompt : pystr) :
  (forall w sent, f {| knowledge_dir := knowledge_dir w; summaries_dir := summaries_dir w;
                       requests := sent; console := console w |} = f w) ->
  preserves f (model_generate_content prompt).
Proof. intros Hf w. unfold model_generate_content. case_match; apply Hf. Qed.

Lemma process_page_trace (page_text : pystr) (current_knowledge : list value)
    (page_num : Z) (pdf_name : pystr) :
  preserves trace (process_page page_text current_knowledge page_num pdf_name).
Proof.
  unfold process_page, save_knowledge_base, response_text, json5_loads_call,
    get, len, list_add.
  preserve; by apply model_generate_content_preserves.
Qed.

Lemma analyze_knowledge_base_trace (knowledge_base : list value) (pdf_name : pystr) :
  preserves trace (analyze_knowledge_base knowledge_base pdf_name).
Proof.
  unfold analyze_knowledge_base, response_text.
  preserve; by apply model_generate_content_preserves.
Qed.

Lemma analyze_knowledge_base_knowledge_dir (knowledge_base : list value) (pdf_name : pystr) :
  preserves knowledge_dir (analyze_knowledge_base knowledge_base pdf_name).
Proof.
  unfold analyze_knowledge_base, response_text.
  preserve; by apply model_generate_content_preserves.
Qed.

Lemma save_summary_knowledge_dir (summary : pystr) (is_final : bool) (pdf_name : pystr) :
  preserves knowledge_dir (save_summary summary is_final pdf_name).
Proof. unfold save_summary. preserve. Qed.

Lemma summarize_knowledge_dir (is_final : bool) (knowledge_base : list value)
    (pdf_name : pystr) :
  preserves knowledge_dir (summarize is_final knowledge_base pdf_name).
Proof.
  unfold summarize. apply preserves_bind; [apply filter_knowledge_preserves|intros ?].
  apply preserves_bind; [apply analyze_knowledge_base_knowledge_dir|intros ?].
  apply save_summary_knowledge_dir.
Qed.

(** A call of the summary writer that returns shows on the console as one
    file written or one empty summary skipped. *)
Lemma save_summary_trace (summary : pystr) (is_final : bool) (pdf_name : pystr)
    (w w' : World) :
  save_summary summary is_final pdf_name w = (Ok tt, w') ->
  exists wrote : bool,
    trace w' = trace w ++ [if wrote then Wrote is_final else Skipped].
Proof.
  unfold save_summary. destruct summary as [|c summary].
  - intros [_ ->]%print_run. exists false. by rewrite trace_printed.
  - intros Hrun.
    apply bind_Ok in Hrun as (existing & w1 & Hglob & Hrun).
    apply bind_Ok in Hrun as (? & w2 & [_ ->]%print_run & Hrun).
    apply bind_Ok in Hrun as (? & w3 & Hwrite & [_ ->]%print_run).
    exists true. rewrite trace_printed. simpl. rewrite app_nil_r.
    rewrite (preserves_run trace _ _ _ _ (trace_open_write _ _ _) Hwrite).
    rewrite trace_printed. simpl.
    by rewrite (preserves_run trace _ _ _ _ (preserves_glob _ _ _) Hglob).
Qed.

Lemma summarize_trace (is_final : bool) (knowledge_base : list value)
    (pdf_name : pystr) (w w' : World) :
  summarize is_final knowledge_base pdf_name w = (Ok tt, w') ->
  exists wrote : bool,
    trace w' = trace w ++ [if wrote then Wrote is_final else Skipped].
Proof.
  unfold summarize. intros Hrun.
  apply bind_Ok in Hrun as (filtered & w1 & Hfilter & Hrun).
  apply bind_Ok in Hrun as (summary & w2 & Hanalyze & Hrun).
  apply save_summary_trace in Hrun as [wrote ->]. exists wrote.
  rewrite (preserves_run trace _ _ _ _ (analyze_knowledge_base_trace _ _) Hanalyze).
  by rewrite (preserves_run trace _ _ _ _ (filter_knowledge_preserves _ _) Hfilter).
Qed.

(** The body of the page loop calls the summary writer for the summaries
    due after that page, the interval one first. *)
Lemma page_step_trace (pages_to_process : Z) (pdf_name : pystr) (page_num : Z)
    (page_text : pystr) (knowledge_base updated : list value) (w w' : World) :
  page_step config pages_to_process pdf_name page_num page_text knowledge_base w
    = (Ok updated, w') ->
  exists written,
    length written = length (due (ANALYSIS_INTERVAL config) pages_to_process page_num)
    /\ trace w' = trace w
         ++ expected (due (ANALYSIS_INTERVAL config) pages_to_process page_num) written.
Proof.
  unfold page_step. intros Hrun.
  apply bind_Ok in Hrun as (kb & w1 & Hpage & Hrun).
  apply bind_Ok in Hrun as ([] & w2 & Hinterval & Hrun).
  apply bind_Ok in Hrun as ([] & w3 & Hfinal & [_ ->]%ret_Ok).
  rewrite <- (preserves_run trace _ _ _ _ (process_page_trace _ _ _ _) Hpage).
  assert (exists written1,
    length written1 = length (if interval_due (ANALYSIS_INTERVAL config) pages_to_process page_num
                              then [(page_num + 1, false)] else [])
    /\ trace w2 = trace w1
         ++ expected (if interval_due (ANALYSIS_INTERVAL config) pages_to_process page_num
                      then [(page_num + 1, false)] else []) written1)
    as (written1 & Hlen1 & Htrace1).
  { unfold interval_due. destruct (ANALYSIS_INTERVAL config) as [interval|].
    - destruct (negb (interval =? 0)); simpl in *.
      + destruct (((page_num + 1) mod interval =? 0) && negb (page_num + 1 =? pages_to_process)).
        * apply bind_Ok in Hinterval as (? & w4 & [_ ->]%print_run & Hinterval).
          apply summarize_trace in Hinterval as [wrote ->].
          exists [wrote]. split; [done|]. rewrite trace_printed. simpl.
          by rewrite <- app_assoc.
        * apply ret_Ok in Hinterval as [_ ->]. exists []. by rewrite app_nil_r.
      + apply ret_Ok in Hinterval as [_ ->]. exists []. by rewrite app_nil_r.
    - apply ret_Ok in Hinterval as [_ ->]. exists []. by rewrite app_nil_r. }
  assert (exists written2,
    length written2 = length (if final_due pages_to_process page_num
                              then [(page_num + 1, true)] else [])
    /\ trace w3 = trace w2
         ++ expected (if final_due pages_to_process page_num
                      then [(page_num + 1, true)] else []) written2)
    as (written2 & Hlen2 & Htrace2).
  { unfold final_due. destruct (page_num + 1 =? pages_to_process).
    - apply bind_Ok in Hfinal as (? & w4 & [_ ->]%print_run & Hfinal).
      apply summarize_trace in Hfinal as [wrote ->].
      exists [wrote]. split; [done|]. rewrite trace_printed. simpl.
      by rewrite <- app_assoc.
    - apply ret_Ok in Hfinal as [_ ->]. exists []. by rewrite app_nil_r. }
  exists (written1 ++ written2). unfold due. split.
  - rewrite !length_app. lia.
  - rewrite expected_app by done. rewrite Htrace2, Htrace1. by rewrite app_assoc.
Qed.

Lemma page_loop_trace (pages_to_process : Z) (pdf_name : pystr) (pages : list pystr) :
  forall (page_num : Z) (knowledge_base updated : list value) (w w' : World),
  page_loop config pages_to_process pdf_name page_num pages knowledge_base w
    = (Ok updated, w') ->
  exists written,
    length written
    = length (schedule (ANALYSIS_INTERVAL config) pages_to_process page_num (length pages))
    /\ trace w' = trace w
         ++ expected (schedule (ANALYSIS_INTERVAL config) pages_to_process page_num
                        (length pages)) written.
Proof.
  induction pages as [|page_text rest IH]; intros page_num kb updated w w' Hrun; simpl.
  - apply ret_Ok in Hrun as [_ ->]. exists []. by rewrite app_nil_r.
  - simpl in Hrun. apply bind_Ok in Hrun as (kb1 & w1 & Hstep & Hrun).
    apply page_step_trace in Hstep as (written1 & Hlen1 & Htrace1).
    apply IH in Hrun as (written2 & Hlen2 & Htrace2).
    exists (written1 ++ written2). split.
    + rewrite !length_app. lia.
    + rewrite expected_app by done. rewrite Htrace2, Htrace1. by rewrite app_assoc.
Qed.

(** What a call of the writer that returns does: nothing for an empty
    summary, one file written otherwise. *)
Lemma save_summary_writes_unless_empty (summary : pystr) (is_final : bool)
    (pdf_name : pystr) (w w' : World) :
  save_summary summary is_final pdf_name w = (Ok tt, w') ->
  match summary with
  | [] => trace w' = trace w ++ [Skipped] /\ summaries_dir w' = summaries_dir w
  | _ =>
      trace w' = trace w ++ [Wrote is_final]
      /\ exists name,
           summaries_dir w'
           = <[name := File (Text (markdown_content summary pdf_name))]> (summaries_dir w)
  end.
Proof.
  unfold save_summary. destruct summary as [|c summary].
  - intros [_ ->]%print_run. by rewrite trace_printed.
  - intros Hrun.
    apply bind_Ok in Hrun as (existing & w1 & Hglob & Hrun).
    apply bind_Ok in Hrun as ([] & w2 & [_ ->]%print_run & Hrun).
    apply bind_Ok in Hrun as ([] & w3 & [_ ->]%open_write_Ok & [_ ->]%print_run).
    unfold glob in Hglob. case_match; [done|]. injection Hglob as _ <-.
    split; [|by eexists].
    unfold trace. simpl. rewrite !omap_app. simpl. by rewrite app_nil_r.
Qed.

(** The schedule, case by case. *)
Lemma due_exactly_when (interval : option Z) (total i page : Z) (is_final : bool) :
  (page, is_final) ∈ due interval total i
  <-> page = i + 1
      /\ if is_final then i + 1 = total
         else exists size, interval = Some size /\ size <> 0
                           /\ (i + 1) mod size = 0 /\ i + 1 <> total.
Proof.
  unfold due, interval_due, final_due. rewrite elem_of_app. split.
  - intros [Hin|Hin].
    + destruct interval as [size|]; [|by apply elem_of_nil in Hin].
      destruct (negb (size =? 0) && ((i + 1) mod size =? 0) && negb (i + 1 =? total))
        eqn:Hdue; [|by apply elem_of_nil in Hin].
      apply list_elem_of_singleton in Hin as [= -> ->]. split; [done|].
      apply andb_prop in Hdue as [[Hsize Hmod]%andb_prop Hlast].
      exists size. repeat split; lia.
    + destruct (i + 1 =? total) eqn:Hlast; [|by apply elem_of_nil in Hin].
      apply list_elem_of_singleton in Hin as [= -> ->]. split; lia.
  - intros [-> Hwhen]. destruct is_final.
    + right. rewrite (proj2 (Z.eqb_eq _ _) Hwhen). apply list_elem_of_here.
    + left. destruct Hwhen as (size & -> & Hsize & Hmod & Hlast).
      rewrite (proj2 (Z.eqb_neq size 0)), (proj2 (Z.eqb_eq _ 0) Hmod),
        (proj2 (Z.eqb_neq _ total)) by done.
      apply list_elem_of_here.
Qed.

(** C9, as amended: once the knowledge base of a document is loaded, an
    exception derived from [Exception] raised while opening the PDF or in the
    page loop is caught by the book loop, reported on the console, and the
    loop goes on with the next document. *)
Theorem book_error_is_caught (pdf_name : pystr) (rest : list pystr)
    (knowledge_base : list value) (w w1 w2 : World) (e : exn) :
  load_existing_knowledge pdf_name (printed (ProcessingBook pdf_name) w)
    = (Ok knowledge_base, w1) ->
  process_book config pdf_name knowledge_base w1 = (Raise e, w2) ->
  issubclass e Exception = true ->
  book_loop config (pdf_name :: rest) w
  = book_loop config rest (printed (ErrorProcessing pdf_name e) w2).
Proof.
  intros Hload Hbook Hsub. simpl.
  unfold book_step, bind, try_except, print.
  by rewrite Hload, Hbook, Hsub.
Qed.

(** An exception raised while loading the knowledge base is outside the
    [try] and leaves the book loop. *)
Lemma load_error_leaves_book_loop (pdf_name : pystr) (rest : list pystr)
    (w w1 : World) (e : exn) :
  load_existing_knowledge pdf_name (printed (ProcessingBook pdf_name) w) = (Raise e, w1) ->
  book_loop config (pdf_name :: rest) w = (Raise e, w1).
Proof.
  intros Hload. simpl. unfold book_step, bind, print. by rewrite Hload.
Qed.

(** X22: The only exceptions derived from [Exception] that leave the book loop
    are those raised while loading a knowledge base. *)
Lemma book_loop_raises_only_from_load (pdf_files : list pystr) (w w' : World) (e : exn) :
  book_loop config pdf_files w = (Raise e, w') ->
  issubclass e Exception = true ->
  exists pdf_name w0,
    pdf_name ∈ pdf_files /\ load_existing_knowledge pdf_name w0 = (Raise e, w').
Proof.
  revert w. induction pdf_files as [|pdf_name rest IH]; intros w Hrun Hsub; [done|].
  simpl in Hrun. apply bind_Raise in Hrun as [Hstep | ([] & w1 & _ & Hrest)].
  - unfold book_step in Hstep.
    apply bind_Raise in Hstep as [Hprint | ([] & w1 & _ & Hstep)]; [done|].
    apply bind_Raise in Hstep as [Hload | (kb & w2 & _ & Htry)].
    + exists pdf_name, w1. split; [apply list_elem_of_here | done].
    + apply try_except_Raise in Htry as [[_ Hnot] | (e0 & w3 & _ & _ & Hhandler)].
      * congruence.
      * done.
  - destruct (IH _ Hrest Hsub) as (name & w0 & Hin & Hload).
    exists name, w0. split; [by apply list_elem_of_further | done].
Qed.

(** *** The knowledge file *)

Lemma page_step_saves (pages_to_process : Z) (pdf_name : pystr) (page_num : Z)
    (page_text : pystr) (knowledge_base updated : list value) (w w' : World) :
  page_step config pages_to_process pdf_name page_num page_text knowledge_base w
    = (Ok updated, w') ->
  knowledge_dir w' !! knowledge_file pdf_name
  = Some (File (Json (knowledge_document updated))).
Proof.
  unfold page_step. intros Hrun.
  apply bind_Ok in Hrun as (kb & w1 & Hpage & Hrun).
  apply bind_Ok in Hrun as ([] & w2 & Hinterval & Hrun).
  apply bind_Ok in Hrun as ([] & w3 & Hfinal & [-> ->]%ret_Ok).
  apply process_page_saves in Hpage.
  eapply (preserves_run knowledge_dir) in Hfinal as ->;
    [|repeat first [apply summarize_knowledge_dir | preserve_step]].
  eapply (preserves_run knowledge_dir) in Hinterval as ->;
    [|repeat first [apply summarize_knowledge_dir | preserve_step]].
  done.
Qed.

Lemma page_loop_saves (pages_to_process : Z) (pdf_name : pystr) (pages : list pystr) :
  forall (page_num : Z) (knowledge_base updated : list value) (w w' : World),
  pages <> [] ->
  page_loop config pages_to_process pdf_name page_num pages knowledge_base w
    = (Ok updated, w') ->
  knowledge_dir w' !! knowledge_file pdf_name
  = Some (File (Json (knowledge_document updated))).
Proof.
  induction pages as [|page_text rest IH]; intros page_num kb updated w w' Hne Hrun;
    [done|].
  simpl in Hrun. apply bind_Ok in Hrun as (kb1 & w1 & Hstep & Hrun).
  destruct rest as [|next rest].
  - apply ret_Ok in Hrun as [-> ->]. by eapply page_step_saves.
  - by eapply IH.
Qed.

End Book.

(** *** Starting again *)

Lemma fnmatch_star (name : pystr) : fnmatch (str "*") name = true.
Proof.
  change (str "*") with [STAR]. induction name as [|c name IH]; [done|].
  simpl in *. exact IH.
Qed.

Lemma clear_files_run (d : directory) (w : World) :
  clear_files d w = (Ok tt, set_entries d (directories_of (entries d w)) w).
Proof.
  unfold clear_files, bind, glob.
  change (occurs [LBRACKET] (str "*") || occurs [STAR; STAR] (str "*")) with false.
  cbv iota. f_equal. f_equal. apply map_eq. intros name.
  unfold directories_of, matching. rewrite lookup_difference.
  destruct (entries d w !! name) as [[c|]|] eqn:Hname.
  - rewrite (proj2 (map_lookup_filter_Some _ _ name (File c))).
    + symmetry. apply map_lookup_filter_None. right. intros x Hx. simplify_eq. done.
    + split; [|done]. apply map_lookup_filter_Some. split; [done|]. apply fnmatch_star.
  - rewrite (proj2 (map_lookup_filter_None _ _ name)).
    + symmetry. by apply map_lookup_filter_Some.
    + right. intros x Hx.
      apply map_lookup_filter_Some in Hx as [Hx _]. simpl. simplify_eq. done.
  - rewrite (proj2 (map_lookup_filter_None _ _ name)).
    + symmetry. apply map_lookup_filter_None. by left.
    + left. apply map_lookup_filter_None. by left.
Qed.

Lemma setup_directories_run (w : World) :
  setup_directories w
  = (Ok tt, {| knowledge_dir := directories_of (knowledge_dir w);
               summaries_dir := directories_of (summaries_dir w);
               requests := requests w; console := console w |}).
Proof.
  unfold setup_directories, bind. rewrite clear_files_run. simpl.
  by rewrite clear_files_run.
Qed.

Section Restart.

Context `{Externals}.

(** [setup_directories] removes every regular file of the knowledge
    directory. *)
Lemma setup_directories_clears (w : World) :
  exists w',
    setup_directories w = (Ok tt, w')
    /\ console w' = console w /\ requests w' = requests w
    /\ forall name c, knowledge_dir w !! name = Some (File c) ->
                      knowledge_dir w' !! name = None.
Proof.
  unfold setup_directories, clear_files, bind, glob.
  change (occurs [LBRACKET] (str "*") || occurs [STAR; STAR] (str "*")) with false.
  simpl. eexists. split; [reflexivity|]. simpl. repeat split.
  intros name c Hfile. apply lookup_difference_None. right.
  exists (File c). apply map_lookup_filter_Some. split; [|done].
  apply map_lookup_filter_Some. split; [done|]. apply fnmatch_star.
Qed.

End Restart.

(** *** Numbered summary files *)

Lemma read_digits_of_uint (d : Decimal.uint) :
  read_digits (str (NilZero.string_of_uint d)) 0 = Nat.of_uint d.
Proof.
  assert (forall d acc, read_digits (str (NilEmpty.string_of_uint d)) acc
                        = Nat.of_uint_acc d acc) as Hempty.
  { clear. induction d; intros acc; unfold str in *;
      cbn [NilEmpty.string_of_uint list_ascii_of_string map read_digits Nat.of_uint_acc];
      rewrite ?IHd, ?Nat.tail_mul_spec; try done; f_equal; vm_compute N.to_nat; lia. }
  destruct d; try apply Hempty. reflexivity.
Qed.

Lemma read_digits_format_03d (n : nat) : read_digits (format_03d n) 0 = n.
Proof.
  unfold format_03d, decimal.
  generalize (3 - length (str (NilZero.string_of_uint (Nat.to_uint n))))%nat as pad.
  induction pad as [|pad IH]; simpl.
  - rewrite read_digits_of_uint. apply DecimalNat.Unsigned.of_to.
  - exact IH.
Qed.

Lemma format_03d_inj (m n : nat) : format_03d m = format_03d n -> m = n.
Proof.
  intros Heq. rewrite <- (read_digits_format_03d m), <- (read_digits_format_03d n).
  by rewrite Heq.
Qed.

Lemma summary_file_inj (is_final : bool) (pdf_name : pystr) (m n : nat) :
  summary_file is_final pdf_name m = summary_file is_final pdf_name n -> m = n.
Proof.
  unfold summary_file. intros Heq.
  apply app_inv_head, app_inv_head, app_inv_tail in Heq.
  by apply format_03d_inj.
Qed.

Lemma fnmatch_literal_prefix (prefix pat name : pystr) :
  glob_literal prefix ->
  fnmatch (prefix ++ pat) (prefix ++ name) = fnmatch pat name.
Proof.
  induction 1 as [|c prefix (Hstar & Hquestion & _) _ IH]; [done|].
  simpl. rewrite (proj2 (N.eqb_neq c STAR)) by done.
  rewrite N.eqb_refl, orb_true_r. exact IH.
Qed.

Lemma fnmatch_star_cons (pat name : pystr) :
  fnmatch (STAR :: pat) name
  = fnmatch pat name
    || match name with [] => false | _ :: name' => fnmatch (STAR :: pat) name' end.
Proof. by destruct name. Qed.

Lemma fnmatch_star_suffix (suffix middle : pystr) :
  glob_literal suffix ->
  fnmatch (STAR :: suffix) (middle ++ suffix) = true.
Proof.
  intros Hsuffix.
  assert (fnmatch suffix suffix = true) as Hself.
  { rewrite <- (app_nil_r suffix) at 1 2. by rewrite fnmatch_literal_prefix. }
  induction middle as [|c middle IH].
  - rewrite fnmatch_star_cons, app_nil_l, Hself. done.
  - rewrite <- app_comm_cons, fnmatch_star_cons. cbv beta iota.
    rewrite IH. apply orb_true_r.
Qed.

Lemma glob_literal_str_checked (s : pystr) :
  forallb (fun c => negb (c =? STAR)%N && negb (c =? QUESTION)%N && negb (c =? LBRACKET)%N) s
    = true ->
  glob_literal s.
Proof.
  unfold glob_literal. induction s as [|c s IH]; simpl; [done|].
  intros [[[Hs Hq]%andb_prop Hb]%andb_prop Hall]%andb_prop.
  apply negb_true_iff, N.eqb_neq in Hs, Hq, Hb. auto.
Qed.

Lemma summary_file_matches (is_final : bool) (pdf_name : pystr) (n : nat) :
  glob_literal (stem pdf_name) ->
  fnmatch (summary_pattern is_final pdf_name) (summary_file is_final pdf_name n) = true.
Proof.
  intros Hstem. unfold summary_pattern, summary_file.
  rewrite fnmatch_literal_prefix by done.
  destruct is_final.
  - change (str "_final_*.md") with (str "_final_" ++ STAR :: str ".md").
    rewrite fnmatch_literal_prefix by by apply glob_literal_str_checked.
    apply fnmatch_star_suffix. by apply glob_literal_str_checked.
  - change (str "_interval_*.md") with (str "_interval_" ++ STAR :: str ".md").
    rewrite fnmatch_literal_prefix by by apply glob_literal_str_checked.
    apply fnmatch_star_suffix. by apply glob_literal_str_checked.
Qed.

Lemma occurs_after_literal (old prefix s : pystr) (c : N) :
  (c = STAR \/ c = LBRACKET) ->
  glob_literal prefix ->
  occurs (c :: old) (prefix ++ s) = occurs (c :: old) s.
Proof.
  intros Hc. induction 1 as [|p prefix (Hstar & _ & Hbracket) _ IH]; [done|].
  simpl in *. rewrite IH.
  assert ((c =? p)%N = false) as ->; [|done].
  apply N.eqb_neq. destruct Hc; congruence.
Qed.

Lemma glob_summary_pattern (is_final : bool) (pdf_name : pystr) (w : World) :
  glob_literal (stem pdf_name) ->
  glob SUMMARIES_DIR (summary_pattern is_final pdf_name) w
  = (Ok (matching (summary_pattern is_final pdf_name) (summaries_dir w)), w).
Proof.
  intros Hstem. unfold glob, summary_pattern.
  rewrite !occurs_after_literal by auto.
  by destruct is_final.
Qed.

Lemma elem_of_numbered (is_final : bool) (pdf_name : pystr) (n : nat) (name : pystr) :
  name ∈ numbered is_final pdf_name n
  <-> exists i, (1 <= i <= n)%nat /\ name = summary_file is_final pdf_name i.
Proof.
  unfold numbered. rewrite elem_of_list_to_set, list_elem_of_fmap.
  split; intros (i & Hi & Hname).
  - exists i. apply elem_of_seq in Hname. split; [lia|done].
  - exists i. split; [done|]. apply elem_of_seq. lia.
Qed.

Lemma numbered_size (is_final : bool) (pdf_name : pystr) (n : nat) :
  size (numbered is_final pdf_name n) = n.
Proof.
  unfold numbered. rewrite size_list_to_set.
  - by rewrite length_map, length_seq.
  - apply NoDup_fmap_2; [|apply NoDup_seq].
    intros i j. apply summary_file_inj.
Qed.

Lemma numbered_succ (is_final : bool) (pdf_name : pystr) (n : nat) :
  numbered is_final pdf_name (n + 1)
  = {[ summary_file is_final pdf_name (n + 1) ]} ∪ numbered is_final pdf_name n.
Proof.
  apply set_eq. intros name.
  rewrite elem_of_union, elem_of_singleton, !elem_of_numbered. split.
  - intros (i & Hi & ->). destruct (decide (i = n + 1)%nat) as [->|]; [by left|].
    right. exists i. split; [lia|done].
  - intros [->|(i & Hi & ->)].
    + exists (n + 1)%nat. split; [lia|done].
    + exists i. split; [lia|done].
Qed.

Lemma summary_file_other_kind (is_final : bool) (pdf_name : pystr) (n : nat) :
  glob_literal (stem pdf_name) ->
  fnmatch (summary_pattern (negb is_final) pdf_name) (summary_file is_final pdf_name n)
  = false.
Proof.
  intros Hstem. unfold summary_pattern, summary_file.
  rewrite fnmatch_literal_prefix by done. by destruct is_final.
Qed.

Section Summaries.

Context `{Externals}.

(** One call of the writer when the matching entries are the files numbered
    001 to [n]: the file numbered [n+1] is new, it is the only entry that
    changes, and the matching entries are then numbered 001 to [n+1]. *)
Lemma save_summary_next (summary : pystr) (is_final : bool) (pdf_name : pystr)
    (w : World) (n : nat) :
  glob_literal (stem pdf_name) ->
  summary <> [] ->
  dom (matching (summary_pattern is_final pdf_name) (summaries_dir w))
    = numbered is_final pdf_name n ->
  exists w',
    save_summary summary is_final pdf_name w = (Ok tt, w')
    /\ summaries_dir w !! summary_file is_final pdf_name (n + 1) = None
    /\ summaries_dir w'
       = <[summary_file is_final pdf_name (n + 1)
             := File (Text (markdown_content summary pdf_name))]> (summaries_dir w)
    /\ knowledge_dir w' = knowledge_dir w
    /\ dom (matching (summary_pattern is_final pdf_name) (summaries_dir w'))
       = numbered is_final pdf_name (n + 1).
Proof.
  intros Hstem Hsummary Hnumbered.
  assert (size (matching (summary_pattern is_final pdf_name) (summaries_dir w)) = n) as Hsize.
  { by rewrite <- size_dom, Hnumbered, numbered_size. }
  assert (summaries_dir w !! summary_file is_final pdf_name (n + 1) = None) as Hfresh.
  { destruct (summaries_dir w !! summary_file is_final pdf_name (n + 1)) as [x|] eqn:Hx;
      [|done].
    assert (summary_file is_final pdf_name (n + 1)
            ∈ dom (matching (summary_pattern is_final pdf_name) (summaries_dir w))) as Hin.
    { apply elem_of_dom. exists x. apply map_lookup_filter_Some. split; [done|].
      by apply summary_file_matches. }
    rewrite Hnumbered in Hin. apply elem_of_numbered in Hin as (i & Hi & Heq).
    apply summary_file_inj in Heq. lia. }
  destruct summary as [|c summary]; [done|].
  unfold save_summary, bind. rewrite glob_summary_pattern by done.
  rewrite Hsize. unfold print, open_write. simpl. rewrite Hfresh. simpl.
  eexists. split; [reflexivity|]. simpl. repeat split; try done.
  unfold matching. rewrite map_filter_insert_True by by apply summary_file_matches.
  rewrite dom_insert_L. fold (matching (summary_pattern is_final pdf_name) (summaries_dir w)).
  by rewrite Hnumbered, numbered_succ.
Qed.

(** What one call that returns writes: the file whose number is the count
    of the matching entries plus one. *)
Lemma save_summary_counts (summary : pystr) (is_final : bool) (pdf_name : pystr)
    (w w' : World) :
  summary <> [] ->
  save_summary summary is_final pdf_name w = (Ok tt, w') ->
  summaries_dir w'
  = <[summary_file is_final pdf_name
        (size (matching (summary_pattern is_final pdf_name) (summaries_dir w)) + 1)
        := File (Text (markdown_content summary pdf_name))]> (summaries_dir w).
Proof.
  intros Hsummary Hrun. destruct summary as [|c summary]; [done|].
  unfold save_summary in Hrun.
  apply bind_Ok in Hrun as (existing & w1 & Hglob & Hrun).
  apply bind_Ok in Hrun as ([] & w2 & [_ ->]%print_run & Hrun).
  apply bind_Ok in Hrun as ([] & w3 & [_ ->]%open_write_Ok & [_ ->]%print_run).
  unfold glob in Hglob. case_match; [done|]. injection Hglob as <- <-. done.
Qed.

Lemma save_summary_three_in_a_row (summary1 summary2 summary3 : pystr)
    (is_final : bool) (pdf_name : pystr) (w : World) (n : nat) :
  glob_literal (stem pdf_name) ->
  summary1 <> [] -> summary2 <> [] -> summary3 <> [] ->
  dom (matching (summary_pattern is_final pdf_name) (summaries_dir w))
    = numbered is_final pdf_name n ->
  exists w',
    (save_summary summary1 is_final pdf_name ;;
     save_summary summary2 is_final pdf_name ;;
     save_summary summary3 is_final pdf_name) w = (Ok tt, w')
    /\ summaries_dir w'
       = <[summary_file is_final pdf_name (n + 3)
             := File (Text (markdown_content summary3 pdf_name))]>
           (<[summary_file is_final pdf_name (n + 2)
                := File (Text (markdown_content summary2 pdf_name))]>
              (<[summary_file is_final pdf_name (n + 1)
                   := File (Text (markdown_content summary1 pdf_name))]> (summaries_dir w)))
    /\ (forall k, (1 <= k <= 3)%nat ->
          summaries_dir w !! summary_file is_final pdf_name (n + k) = None)
    /\ NoDup [summary_file is_final pdf_name (n + 1);
              summary_file is_final pdf_name (n + 2);
              summary_file is_final pdf_name (n + 3)].
Proof.
  intros Hstem Hs1 Hs2 Hs3 Hnumbered.
  destruct (save_summary_next summary1 is_final pdf_name w n Hstem Hs1 Hnumbered)
    as (w1 & Hrun1 & Hfresh1 & Hdir1 & _ & Hnumbered1).
  destruct (save_summary_next summary2 is_final pdf_name w1 (n + 1) Hstem Hs2 Hnumbered1)
    as (w2 & Hrun2 & Hfresh2 & Hdir2 & _ & Hnumbered2).
  destruct (save_summary_next summary3 is_final pdf_name w2 (n + 1 + 1) Hstem Hs3 Hnumbered2)
    as (w3 & Hrun3 & Hfresh3 & Hdir3 & _ & _).
  replace (n + 1 + 1 + 1)%nat with (n + 3)%nat in * by lia.
  replace (n + 1 + 1)%nat with (n + 2)%nat in * by lia.
  rewrite Hdir2, Hdir1 in Hfresh3. rewrite Hdir1 in Hfresh2.
  apply lookup_insert_None in Hfresh3 as [Hfresh3 Hne23].
  apply lookup_insert_None in Hfresh3 as [Hfresh3 Hne13].
  apply lookup_insert_None in Hfresh2 as [Hfresh2 Hne12].
  exists w3. split; [|split; [|split]].
  - unfold bind. by rewrite Hrun1, Hrun2, Hrun3.
  - by rewrite Hdir3, Hdir2, Hdir1.
  - intros k Hk. assert (k = 1 \/ k = 2 \/ k = 3)%nat as [-> | [-> | ->]] by lia; done.
  - apply NoDup_cons. split.
    { rewrite !elem_of_cons, elem_of_nil. intros [?|[?|[]]]; congruence. }
    apply NoDup_cons. split.
    { rewrite !elem_of_cons, elem_of_nil. intros [?|[]]; congruence. }
    apply NoDup_singleton.
Qed.

(** *** The summaries directory over the pages of a document *)

Lemma grows_in_sequence_refl (pdf_name : pystr) (m : gmap pystr node) :
  grows_in_sequence pdf_name m m.
Proof.
  intros intervals finals Hseq. split; [done|]. exists 0%nat, 0%nat.
  by rewrite !Nat.add_0_r.
Qed.

Lemma grows_in_sequence_trans (pdf_name : pystr) (m1 m2 m3 : gmap pystr node) :
  grows_in_sequence pdf_name m1 m2 -> grows_in_sequence pdf_name m2 m3 ->
  grows_in_sequence pdf_name m1 m3.
Proof.
  intros H12 H23 intervals finals Hseq.
  destruct (H12 _ _ Hseq) as (Hsub12 & i1 & f1 & Hseq2).
  destruct (H23 _ _ Hseq2) as (Hsub23 & i2 & f2 & Hseq3).
  split; [by etrans|]. exists (i1 + i2)%nat, (f1 + f2)%nat.
  by rewrite !Nat.add_assoc.
Qed.

(** [m] lets the summaries of the document only grow in sequence, whatever
    its outcome. *)
Lemma grows_bind {A B} (pdf_name : pystr) (m : M A) (k : A -> M B) (w : World) :
  (forall w0, grows_in_sequence pdf_name (summaries_dir w0) (summaries_dir (m w0).2)) ->
  (forall a w0, grows_in_sequence pdf_name (summaries_dir w0) (summaries_dir (k a w0).2)) ->
  grows_in_sequence pdf_name (summaries_dir w) (summaries_dir (bind m k w).2).
Proof.
  intros Hm Hk. unfold bind. specialize (Hm w).
  destruct (m w) as [[a|e|] w1]; simpl in *; try done.
  eapply grows_in_sequence_trans; [exact Hm|apply Hk].
Qed.

Lemma grows_preserves {A} (pdf_name : pystr) (m : M A) (w : World) :
  preserves summaries_dir m ->
  grows_in_sequence pdf_name (summaries_dir w) (summaries_dir (m w).2).
Proof. intros ->. apply grows_in_sequence_refl. Qed.

Lemma process_page_summaries_dir (page_text : pystr) (current_knowledge : list value)
    (page_num : Z) (pdf_name : pystr) :
  preserves summaries_dir (process_page page_text current_knowledge page_num pdf_name).
Proof.
  unfold process_page, save_knowledge_base, response_text, json5_loads_call,
    get, len, list_add.
  frame; by apply model_generate_content_preserves.
Qed.

Lemma analyze_knowledge_base_summaries_dir (knowledge_base : list value)
    (pdf_name : pystr) :
  preserves summaries_dir (analyze_knowledge_base knowledge_base pdf_name).
Proof.
  unfold analyze_knowledge_base, response_text.
  frame; by apply model_generate_content_preserves.
Qed.

Lemma save_summary_grows (summary : pystr) (is_final : bool) (pdf_name : pystr)
    (w : World) :
  glob_literal (stem pdf_name) ->
  grows_in_sequence pdf_name (summaries_dir w)
    (summaries_dir (save_summary summary is_final pdf_name w).2).
Proof.
  intros Hstem. destruct summary as [|c summary]; [apply grows_in_sequence_refl|].
  intros intervals finals [Hintervals Hfinals].
  assert (exists n, dom (matching (summary_pattern is_final pdf_name) (summaries_dir w))
                    = numbered is_final pdf_name n) as [n Hnumbered].
  { destruct is_final; eauto. }
  destruct (save_summary_next (c :: summary) is_final pdf_name w n Hstem)
    as (w' & -> & Hfresh & Hdir & _ & Hnext); [done|done|].
  cbn [snd]. split.
  { rewrite Hdir. by apply insert_subseteq. }
  assert (matching (summary_pattern (negb is_final) pdf_name) (summaries_dir w')
          = matching (summary_pattern (negb is_final) pdf_name) (summaries_dir w)) as Hother.
  { rewrite Hdir. unfold matching. apply map_filter_insert_not. intros y. simpl.
    by rewrite summary_file_other_kind. }
  unfold in_sequence. destruct is_final; simpl in Hother.
  - exists 0%nat, 1%nat. rewrite Hother, Nat.add_0_r. split; [done|].
    rewrite Hnext. f_equal.
    apply (f_equal size) in Hnumbered. rewrite Hfinals in Hnumbered.
    rewrite !numbered_size in Hnumbered. by rewrite Hnumbered.
  - exists 1%nat, 0%nat. rewrite Hother, Nat.add_0_r. split; [|done].
    rewrite Hnext. f_equal.
    apply (f_equal size) in Hnumbered. rewrite Hintervals in Hnumbered.
    rewrite !numbered_size in Hnumbered. by rewrite Hnumbered.
Qed.

Lemma summarize_grows (is_final : bool) (knowledge_base : list value)
    (pdf_name : pystr) (w : World) :
  glob_literal (stem pdf_name) ->
  grows_in_sequence pdf_name (summaries_dir w)
    (summaries_dir (summarize is_final knowledge_base pdf_name w).2).
Proof.
  intros Hstem. unfold summarize.
  apply grows_bind; [intros w0; apply grows_preserves, filter_knowledge_preserves|].
  intros filtered w0.
  apply grows_bind;
    [intros w1; apply grows_preserves, analyze_knowledge_base_summaries_dir|].
  intros summary w1. by apply save_summary_grows.
Qed.

Lemma page_loop_grows (config : Config) (pages_to_process : Z) (pdf_name : pystr)
    (pages : list pystr) :
  glob_literal (stem pdf_name) ->
  forall (page_num : Z) (knowledge_base : list value) (w : World),
  grows_in_sequence pdf_name (summaries_dir w)
    (summaries_dir
       (page_loop config pages_to_process pdf_name page_num pages knowledge_base w).2).
Proof.
  intros Hstem.
  induction pages as [|page_text rest IH]; intros page_num kb w;
    [apply grows_in_sequence_refl|].
  cbn [page_loop]. apply grows_bind; [|intros kb1 w0; apply IH].
  intros w0. unfold page_step.
  apply grows_bind; [intros w1; apply grows_preserves, process_page_summaries_dir|].
  intros kb1 w1. apply grows_bind.
  { intros w2. repeat case_match;
      try (apply grows_in_sequence_refl);
      (apply grows_bind; [intros w3; apply grows_in_sequence_refl|]);
      intros [] w3; by apply summarize_grows. }
  intros [] w2. apply grows_bind; [|intros [] w3; apply grows_in_sequence_refl].
  intros w3. case_match; [|apply grows_in_sequence_refl].
  apply grows_bind; [intros w4; apply grows_in_sequence_refl|].
  intros [] w4. by apply summarize_grows.
Qed.

(** C8, as amended: the writer numbers a summary with the count of the
    entries matching the pattern of its kind plus one.  For a document name
    without glob metacharacters: when those entries are exactly the
    summaries numbered 001 to [n], three summaries written in a row get the
    numbers [n+1], [n+2], [n+3], every one under a name that did not exist,
    and no other entry of the directory changes; start-up deletes the files
    earlier runs left, so that three summaries written after it are numbered
    001, 002, 003 whatever those files were, when no sub-directory matches
    the pattern; and over the pages of the document, whatever the outcome,
    every entry of the summaries directory stays as it was and the
    summaries of the document stay numbered in sequence. *)
Theorem summaries_numbered_in_sequence (summary1 summary2 summary3 : pystr)
    (is_final : bool) (pdf_name : pystr) (w : World) (n : nat) :
  glob_literal (stem pdf_name) ->
  summary1 <> [] -> summary2 <> [] -> summary3 <> [] ->
  let pattern := summary_pattern is_final pdf_name in
  let name k := summary_file is_final pdf_name k in
  let file summary := File (Text (markdown_content summary pdf_name)) in
  let three :=
    (save_summary summary1 is_final pdf_name ;;
     save_summary summary2 is_final pdf_name ;;
     save_summary summary3 is_final pdf_name) in
  (forall summary w0 w1,
     summary <> [] ->
     save_summary summary is_final pdf_name w0 = (Ok tt, w1) ->
     summaries_dir w1
     = <[name (size (matching pattern (summaries_dir w0)) + 1)%nat := file summary]>
         (summaries_dir w0))
  /\ (dom (matching pattern (summaries_dir w)) = numbered is_final pdf_name n ->
      exists w',
        three w = (Ok tt, w')
        /\ summaries_dir w'
           = <[name (n + 3)%nat := file summary3]>
               (<[name (n + 2)%nat := file summary2]>
                  (<[name (n + 1)%nat := file summary1]> (summaries_dir w)))
        /\ (forall k, (1 <= k <= 3)%nat -> summaries_dir w !! name (n + k)%nat = None)
        /\ NoDup [name (n + 1)%nat; name (n + 2)%nat; name (n + 3)%nat])
  /\ ((forall entry, summaries_dir w !! entry = Some Dir -> fnmatch pattern entry = false) ->
      exists w',
        (setup_directories ;; three) w = (Ok tt, w')
        /\ summaries_dir w'
           = <[name 3%nat := file summary3]>
               (<[name 2%nat := file summary2]>
                  (<[name 1%nat := file summary1]> (directories_of (summaries_dir w))))
        /\ (forall k, (1 <= k <= 3)%nat ->
              directories_of (summaries_dir w) !! name k = None)
        /\ map format_03d [1; 2; 3]%nat = [str "001"; str "002"; str "003"])
  /\ (forall config pages_to_process page_num pages knowledge_base intervals finals,
        in_sequence pdf_name (summaries_dir w) intervals finals ->
        let w' :=
          (page_loop config pages_to_process pdf_name page_num pages knowledge_base w).2 in
        summaries_dir w ⊆ summaries_dir w'
        /\ exists more_intervals more_finals,
             in_sequence pdf_name (summaries_dir w')
               (intervals + more_intervals) (finals + more_finals)).
Proof.
  intros Hstem Hs1 Hs2 Hs3 pattern name file three. split; [|split; [|split]].
  - intros summary w0 w1. apply save_summary_counts.
  - intros Hnumbered. by apply save_summary_three_in_a_row.
  - intros Hdirs. unfold bind at 1. rewrite setup_directories_run.
    destruct (save_summary_three_in_a_row summary1 summary2 summary3 is_final pdf_name
                {| knowledge_dir := directories_of (knowledge_dir w);
                   summaries_dir := directories_of (summaries_dir w);
                   requests := requests w; console := console w |} 0 Hstem Hs1 Hs2 Hs3)
      as (w' & Hrun & Hdir & Hfresh & _).
    { simpl. unfold numbered. simpl. apply dom_empty_iff_L.
      apply map_empty_filter. intros entry x Hentry Hmatch. simpl in Hmatch.
      apply map_lookup_filter_Some in Hentry as [Hentry Hdir]. simpl in Hdir.
      destruct x; [done|]. pose proof (Hdirs _ Hentry) as Hno.
      subst pattern. congruence. }
    exists w'. split; [exact Hrun|]. split; [exact Hdir|]. split; [exact Hfresh|].
    reflexivity.
  - intros config pages_to_process page_num pages kb intervals finals Hseq w'.
    by apply (page_loop_grows config pages_to_process pdf_name pages Hstem page_num kb w).
Qed.

End Summaries.

(** *** The summaries made over the pages of a document *)

Section Schedule.

Context `{Externals}.
Variable config : Config.

(** After the page is analysed, the body of the page loop makes the
    summaries due after that page. *)
Lemma page_step_then {B} (pages_to_process : Z) (pdf_name : pystr) (page_num : Z)
    (page_text : pystr) (knowledge_base : list value) (k : list value -> M B)
    (w : World) :
  bind (page_step config pages_to_process pdf_name page_num page_text knowledge_base) k w
  = bind (process_page page_text knowledge_base page_num pdf_name)
      (fun updated =>
         bind (summaries_due pages_to_process pdf_name updated
                 (due (ANALYSIS_INTERVAL config) pages_to_process page_num))
           (fun _ => k updated)) w.
Proof.
  unfold page_step, due, interval_due, final_due, bind at 1 2 7.
  destruct (process_page page_text knowledge_base page_num pdf_name w)
    as [[updated|e|] w1]; [|done|done].
  destruct (ANALYSIS_INTERVAL config) as [interval|];
    [destruct (interval =? 0), ((page_num + 1) mod interval =? 0)|];
    destruct (page_num + 1 =? pages_to_process);
    cbn [negb andb app summaries_due];
    unfold bind, print, ret; cbv beta iota;
    repeat match goal with
           | |- context [summarize ?is_final ?kb ?name ?w0] =>
               destruct (summarize is_final kb name w0) as [[[]|?|] ?]; cbv beta iota
           end;
    reflexivity.
Qed.

Lemma page_loop_scheduled (pages_to_process : Z) (pdf_name : pystr) (pages : list pystr) :
  forall (page_num : Z) (knowledge_base : list value) (w : World),
  page_loop config pages_to_process pdf_name page_num pages knowledge_base w
  = scheduled_loop (ANALYSIS_INTERVAL config) pages_to_process pdf_name page_num pages
      knowledge_base w.
Proof.
  induction pages as [|page_text rest IH]; intros page_num kb w; [done|].
  cbn [page_loop scheduled_loop]. rewrite page_step_then.
  apply bind_ext. intros updated w1. apply bind_ext. intros _ w2. apply IH.
Qed.

(** The loop of the specification over two runs of pages, and over a run of
    pages of which only the last one has summaries due. *)
Lemma scheduled_loop_app {B} (interval : option Z) (total : Z) (pdf_name : pystr)
    (pages1 pages2 : list pystr) :
  forall (i : Z) (knowledge_base : list value) (k : list value -> M B) (w : World),
  bind (scheduled_loop interval total pdf_name i (pages1 ++ pages2) knowledge_base) k w
  = bind (scheduled_loop interval total pdf_name i pages1 knowledge_base)
      (fun updated =>
         bind (scheduled_loop interval total pdf_name (i + Z.of_nat (length pages1))
                 pages2 updated) k) w.
Proof.
  induction pages1 as [|page_text rest IH]; intros i kb k w.
  - cbn [app scheduled_loop length]. rewrite bind_ret_l. by rewrite Z.add_0_r.
  - cbn [app scheduled_loop length]. rewrite !bind_assoc.
    apply bind_ext. intros updated w1. cbv beta. rewrite !bind_assoc.
    apply bind_ext. intros _ w2. cbv beta. rewrite IH.
    by replace (i + 1 + Z.of_nat (length rest)) with (i + Z.of_nat (S (length rest)))
      by lia.
Qed.

Lemma scheduled_loop_quiet {B} (interval : option Z) (total : Z) (pdf_name : pystr)
    (pages : list pystr) :
  pages <> [] ->
  forall (i : Z) (knowledge_base : list value) (k : list value -> M B) (w : World),
  (forall j, (j < length pages - 1)%nat -> due interval total (i + Z.of_nat j) = []) ->
  bind (scheduled_loop interval total pdf_name i pages knowledge_base) k w
  = bind (process_pages pdf_name i pages knowledge_base)
      (fun updated =>
         bind (summaries_due total pdf_name updated
                 (due interval total (i + Z.of_nat (length pages) - 1)))
           (fun _ => k updated)) w.
Proof.
  induction pages as [|page_text rest IH]; [done|]. intros _ i kb k w Hquiet.
  cbn [scheduled_loop process_pages]. rewrite !bind_assoc.
  apply bind_ext. intros updated w1. cbv beta.
  destruct rest as [|next rest].
  - cbn [scheduled_loop process_pages length]. rewrite bind_assoc, bind_ret_l.
    replace (i + Z.of_nat 1 - 1) with i by lia.
    apply bind_ext. intros _ w2. by rewrite bind_ret_l.
  - pose proof (Hquiet 0%nat) as Hfirst. rewrite Z.add_0_r in Hfirst.
    rewrite Hfirst by (simpl; lia). cbn [summaries_due].
    rewrite bind_assoc, bind_ret_l. rewrite IH; [|done|].
    + by replace (i + 1 + Z.of_nat (length (next :: rest)) - 1)
        with (i + Z.of_nat (length (page_text :: next :: rest)) - 1)
        by (cbn [length]; lia).
    + intros j Hj. replace (i + 1 + Z.of_nat j) with (i + Z.of_nat (S j)) by lia.
      apply Hquiet. simpl in *. lia.
Qed.

(** The shipped interval over 25 pages: twenty pages, the interval summary,
    five pages, the final summary. *)
Lemma scheduled_loop_25_pages {B} (pdf_name : pystr) (pages : list pystr)
    (knowledge_base : list value) (k : M B) (w : World) :
  length pages = 25%nat ->
  bind (scheduled_loop (Some 20) 25 pdf_name 0 pages knowledge_base) (fun _ => k) w
  = (after_20 <- process_pages pdf_name 0 (take 20 pages) knowledge_base ;;
     print (Progress 20 25) ;;
     summarize false after_20 pdf_name ;;
     after_25 <- process_pages pdf_name 20 (drop 20 pages) after_20 ;;
     print (FinalPage 25 25) ;;
     summarize true after_25 pdf_name ;;
     k) w.
Proof.
  intros Hlen.
  assert (length (take 20 pages) = 20%nat) as Htake by (rewrite length_take; lia).
  assert (length (drop 20 pages) = 5%nat) as Hdrop by (rewrite length_drop; lia).
  rewrite <- (take_drop 20 pages) at 1. rewrite scheduled_loop_app.
  rewrite scheduled_loop_quiet.
  - rewrite Htake. apply bind_ext. intros after_20 w1.
    change (due (Some 20) 25 (0 + Z.of_nat 20 - 1)) with [(20, false)].
    cbn [summaries_due]. rewrite !bind_assoc.
    apply bind_ext. intros _ w2. cbv beta. rewrite !bind_assoc.
    apply bind_ext. intros _ w3. cbv beta. rewrite bind_ret_l.
    rewrite scheduled_loop_quiet.
    + rewrite Hdrop. apply bind_ext. intros after_25 w4.
      change (due (Some 20) 25 (0 + Z.of_nat 20 + Z.of_nat 5 - 1)) with [(25, true)].
      cbn [summaries_due]. rewrite !bind_assoc.
      apply bind_ext. intros _ w5. cbv beta. rewrite !bind_assoc.
      apply bind_ext. intros _ w6. cbv beta. by rewrite bind_ret_l.
    + intros Hnil. by rewrite Hnil in Hdrop.
    + rewrite Hdrop. intros j Hj.
      do 4 (destruct j as [|j]; [reflexivity|]). lia.
  - intros Hnil. by rewrite Hnil in Htake.
  - rewrite Htake. intros j Hj.
    do 19 (destruct j as [|j]; [reflexivity|]). lia.
Qed.

(** What one summary does: nothing but two lines on the console when the
    filtered base is empty; otherwise one request with the filtered base,
    and, when the answer holds text, one file with that text under the name
    numbered by the count of the matching entries plus one. *)
Lemma summarize_run (is_final : bool) (knowledge_base filtered : list value)
    (pdf_name : pystr) (w : World) :
  (filter_knowledge knowledge_base w).1 = Ok filtered ->
  let prompt := analysis_prompt (map py_str filtered) in
  let path :=
    summary_file is_final pdf_name
      (size (matching (summary_pattern is_final pdf_name) (summaries_dir w)) + 1) in
  (filtered = [] ->
   summarize is_final knowledge_base pdf_name w
   = (Ok tt, printed SkippingSummarySave (printed SkippingAnalysis w)))
  /\ (forall text,
        filtered <> [] ->
        generate_content (length (requests w)) prompt = Response (Some text) ->
        text <> [] ->
        glob_literal (stem pdf_name) ->
        summaries_dir w !! path <> Some Dir ->
        summarize is_final knowledge_base pdf_name w
        = (Ok tt,
           {| knowledge_dir := knowledge_dir w;
              summaries_dir :=
                <[path := File (Text (markdown_content text pdf_name))]> (summaries_dir w);
              requests := requests w ++ [prompt];
              console := console w ++ [GeneratingAnalysis; AnalysisGenerated;
                                       SavingAnalysis is_final; AnalysisSaved path] |}))
  /\ (forall e,
        filtered <> [] ->
        generate_content (length (requests w)) prompt = Response (Some [])
        \/ (generate_content (length (requests w)) prompt = Response None /\ e = ValueError)
        \/ (generate_content (length (requests w)) prompt = RequestError e
            /\ issubclass e ValueError = true) ->
        exists w',
          summarize is_final knowledge_base pdf_name w = (Ok tt, w')
          /\ requests w' = requests w ++ [prompt]
          /\ summaries_dir w' = summaries_dir w
          /\ knowledge_dir w' = knowledge_dir w
          /\ last (console w') = Some SkippingSummarySave).
Proof.
  intros Hfiltered prompt path.
  assert (filter_knowledge knowledge_base w = (Ok filtered, w)) as Hfilter.
  { rewrite filter_knowledge_run in *.
    destruct (existsb point_without_split knowledge_base); [done|].
    simpl in Hfiltered. by injection Hfiltered as <-. }
  clear Hfiltered. subst prompt path. unfold summarize.
  split; [|split].
  - intros ->. by rewrite (bind_run _ _ _ _ _ Hfilter).
  - intros text Hne Hmodel Htext Hstem Hpath.
    rewrite (bind_run _ _ _ _ _ Hfilter).
    destruct filtered as [|item rest]; [done|]. destruct text as [|c text]; [done|].
    erewrite bind_run;
      [|unfold analyze_knowledge_base; run; rewrite Hmodel; reflexivity].
    unfold save_summary. erewrite bind_run; [|by apply glob_summary_pattern].
    unfold bind, print, open_write. simpl.
    destruct (summaries_dir w !! _) as [[content|]|] eqn:Hentry;
      [|by destruct Hpath|]; unfold printed; simpl; by rewrite <- !app_assoc.
  - intros e Hne Hmodel. rewrite (bind_run _ _ _ _ _ Hfilter).
    destruct filtered as [|item rest]; [done|].
    destruct Hmodel as [Hmodel | [[Hmodel ->] | [Hmodel Hsub]]].
    + erewrite bind_run;
        [|unfold analyze_knowledge_base; run; rewrite Hmodel; reflexivity].
      eexists. split; [reflexivity|]. simpl. repeat split. by rewrite last_snoc.
    + erewrite bind_run;
        [|unfold analyze_knowledge_base; run; rewrite Hmodel; reflexivity].
      eexists. split; [reflexivity|]. simpl. repeat split. by rewrite last_snoc.
    + erewrite bind_run;
        [|unfold analyze_knowledge_base; run; rewrite Hmodel; simpl; rewrite Hsub;
          reflexivity].
      eexists. split; [reflexivity|]. simpl. repeat split. by rewrite last_snoc.
Qed.

(** C3, as amended: in every run of a document the page loop is the
    analysis of each page followed by the summaries due after that page.
    An interval summary is due after page [i] exactly when an interval size
    is configured, [(i+1) mod interval = 0] and [i+1] is not the number of
    pages to process; a final summary exactly when [i+1] is the number of
    pages to process.  Each summary runs the summariser on the filtered
    base and calls the summary writer, which writes one file, or nothing
    when the summary is empty.  With the interval 20, no page limit and 25
    pages the summaries due are one interval summary after page 20 and one
    final summary after page 25: the run is twenty pages, the interval
    summary, five pages, the final summary. *)
Theorem summaries_follow_schedule (pdf_name : pystr) (pages : list pystr)
    (knowledge_base : list value) (w : World) :
  let total := pages_to_process_of config (Z.of_nat (length pages)) in
  let interval := ANALYSIS_INTERVAL config in
  let steps := schedule interval total 0 (length (pages_read config pages)) in
  (fitz_open pdf_name = Document pages ->
   process_book config pdf_name knowledge_base w
   = (print (ProcessingPages total) ;;
      scheduled_loop interval total pdf_name 0 (pages_read config pages) knowledge_base ;;
      print (BookComplete pdf_name)) w)
  /\ (forall (i page : Z) (is_final : bool),
        (page, is_final) ∈ due interval total i
        <-> page = i + 1
            /\ if is_final then i + 1 = total
               else exists size, interval = Some size /\ size <> 0
                                 /\ (i + 1) mod size = 0 /\ i + 1 <> total)
  /\ (config = shipped -> length pages = 25%nat ->
      steps = [(20, false); (25, true)]
      /\ (forall i, 0 <= i < 25 ->
            due interval total i
            = if i =? 19 then [(20, false)] else if i =? 24 then [(25, true)] else [])
      /\ (fitz_open pdf_name = Document pages ->
          process_book config pdf_name knowledge_base w
          = (print (ProcessingPages 25) ;;
             after_20 <- process_pages pdf_name 0 (take 20 pages) knowledge_base ;;
             print (Progress 20 25) ;;
             summarize false after_20 pdf_name ;;
             after_25 <- process_pages pdf_name 20 (drop 20 pages) after_20 ;;
             print (FinalPage 25 25) ;;
             summarize true after_25 pdf_name ;;
             print (BookComplete pdf_name)) w))
  /\ (forall is_final kb filtered w0,
        (filter_knowledge kb w0).1 = Ok filtered ->
        let prompt := analysis_prompt (map py_str filtered) in
        let path :=
          summary_file is_final pdf_name
            (size (matching (summary_pattern is_final pdf_name) (summaries_dir w0)) + 1) in
        (filtered = [] ->
         summarize is_final kb pdf_name w0
         = (Ok tt, printed SkippingSummarySave (printed SkippingAnalysis w0)))
        /\ (forall text,
              filtered <> [] ->
              generate_content (length (requests w0)) prompt = Response (Some text) ->
              text <> [] ->
              glob_literal (stem pdf_name) ->
              summaries_dir w0 !! path <> Some Dir ->
              summarize is_final kb pdf_name w0
              = (Ok tt,
                 {| knowledge_dir := knowledge_dir w0;
                    summaries_dir :=
                      <[path := File (Text (markdown_content text pdf_name))]>
                        (summaries_dir w0);
                    requests := requests w0 ++ [prompt];
                    console := console w0 ++ [GeneratingAnalysis; AnalysisGenerated;
                                              SavingAnalysis is_final;
                                              AnalysisSaved path] |}))
        /\ (forall e,
              filtered <> [] ->
              generate_content (length (requests w0)) prompt = Response (Some [])
              \/ (generate_content (length (requests w0)) prompt = Response None
                  /\ e = ValueError)
              \/ (generate_content (length (requests w0)) prompt = RequestError e
                  /\ issubclass e ValueError = true) ->
              exists w1,
                summarize is_final kb pdf_name w0 = (Ok tt, w1)
                /\ requests w1 = requests w0 ++ [prompt]
                /\ summaries_dir w1 = summaries_dir w0
                /\ knowledge_dir w1 = knowledge_dir w0
                /\ last (console w1) = Some SkippingSummarySave))
  /\ (forall w',
        fitz_open pdf_name = Document pages ->
        process_book config pdf_name knowledge_base w = (Ok tt, w') ->
        exists written,
          length written = length steps /\ trace w' = trace w ++ expected steps written)
  /\ (forall summary is_final w0 w1,
        save_summary summary is_final pdf_name w0 = (Ok tt, w1) ->
        match summary with
        | [] => trace w1 = trace w0 ++ [Skipped] /\ summaries_dir w1 = summaries_dir w0
        | _ =>
            trace w1 = trace w0 ++ [Wrote is_final]
            /\ exists name,
                 summaries_dir w1
                 = <[name := File (Text (markdown_content summary pdf_name))]>
                     (summaries_dir w0)
        end).
Proof.
  intros total interval steps. split; [|split; [|split; [|split; [|split]]]].
  - intros Hopen. unfold process_book. rewrite Hopen.
    apply bind_ext. intros _ w1. apply bind_ext_l. apply page_loop_scheduled.
  - intros i page is_final. apply due_exactly_when.
  - intros Hconfig Hcount. subst steps total interval.
    assert (ANALYSIS_INTERVAL config = Some 20) as Hinterval by by rewrite Hconfig.
    assert (pages_to_process_of config (Z.of_nat (length pages)) = 25) as Htotal.
    { rewrite Hconfig, Hcount. reflexivity. }
    assert (pages_read config pages = pages) as Hread.
    { unfold pages_read. rewrite Htotal, Hcount. apply take_ge. lia. }
    rewrite Hinterval, Htotal, Hread, Hcount. split; [reflexivity|]. split.
    + intros i Hi.
      assert (exists n : nat, (n < 25)%nat /\ i = Z.of_nat n) as (n & Hn & ->)
        by (exists (Z.to_nat i); lia).
      do 25 (destruct n as [|n]; [reflexivity|]). lia.
    + intros Hopen. unfold process_book. rewrite Hopen, Htotal, Hread.
      apply bind_ext. intros _ w1.
      erewrite bind_ext_l by apply page_loop_scheduled.
      rewrite Hinterval. by apply scheduled_loop_25_pages.
  - intros is_final kb filtered w0. apply summarize_run.
  - intros w' Hopen Hrun. unfold process_book in Hrun. rewrite Hopen in Hrun.
    apply bind_Ok in Hrun as (? & w1 & [_ ->]%print_run & Hrun).
    apply bind_Ok in Hrun as (updated & w2 & Hloop & [_ ->]%print_run).
    apply page_loop_trace in Hloop as (written & Hlen & Htrace).
    exists written. split; [done|].
    rewrite trace_printed. simpl. rewrite app_nil_r.
    rewrite Htrace, trace_printed. simpl. by rewrite app_nil_r.
  - intros summary is_final w0 w1. apply save_summary_writes_unless_empty.
Qed.

End Schedule.

Section Durability.

Context `{Externals}.
Variable config : Config.

(** C1, as amended: when the page loop has run through a page, the
    knowledge file of the document holds exactly the list accumulated so
    far, and loading from that disk returns exactly that list; but a new
    run of the program starts with [setup_directories], which deletes the
    file, so that the load that follows starts from the empty list. *)
Theorem knowledge_saved_then_cleared (pages_to_process : Z) (pdf_name : pystr)
    (page_num : Z) (pages : list pystr) (knowledge_base updated : list value)
    (w w' : World) :
  pages <> [] ->
  page_loop config pages_to_process pdf_name page_num pages knowledge_base w
    = (Ok updated, w') ->
  knowledge_dir w' !! knowledge_file pdf_name
    = Some (File (Json (knowledge_document updated)))
  /\ load_existing_knowledge pdf_name w'
     = (Ok updated, printed (LoadedExisting (length updated)) (printed LoadingExisting w'))
  /\ exists w'',
       (setup_directories ;; load_existing_knowledge pdf_name) w' = (Ok [], w'')
       /\ console w'' = console w' ++ [StartingFresh].
Proof.
  intros Hpages Hrun.
  pose proof (page_loop_saves config _ _ _ _ _ _ _ _ Hpages Hrun) as Hfile.
  split; [done|]. split; [by apply load_existing_knowledge_saved|].
  destruct (setup_directories_clears w') as (w1 & Hsetup & Hconsole & _ & Hcleared).
  specialize (Hcleared _ _ Hfile).
  unfold bind. rewrite Hsetup.
  unfold load_existing_knowledge, bind, path_exists, print. simpl.
  rewrite Hcleared. rewrite bool_decide_eq_false_2 by by intros [? ?].
  eexists. split; [reflexivity|]. simpl. by rewrite Hconsole.
Qed.

End Durability.

(** ** Concrete runs *)

Example split_words : split (str "  two  words ") = [str "two"; str "words"].
Proof. reflexivity. Qed.

Example stem_of_name : stem (str "my.pdf.notes.pdf") = str "my.notes".
Proof. reflexivity. Qed.

Example fnmatch_summaries :
  fnmatch (str "book_interval_*.md") (str "book_interval_001.md") = true
  /\ fnmatch (str "book_interval_*.md") (str "book_final_001.md") = false.
Proof. split; reflexivity. Qed.

Example format_03d_pads : format_03d 7 = str "007" /\ format_03d 1234 = str "1234".
Proof. split; reflexivity. Qed.

Example handler_misses_value_error :
  issubclass JSONDecodeError ValueError = true
  /\ issubclass ValueError JSONDecodeError = false.
Proof. split; reflexivity. Qed.

(** The shipped configuration on the 25-page book: the unreadable file is
    reported and skipped, 25 pages and two summaries are requested, and the
    summaries directory ends with one interval and one final summary. *)
Example main_on_the_book :
  let run := main (H := Demo.externals) shipped Demo.empty_world in
  run.1 = Ok tt
  /\ length (requests run.2) = 27%nat
  /\ trace run.2 = [Due 20 false; Wrote false; Due 25 true; Wrote true]
  /\ bool_decide (dom (summaries_dir run.2)
                  = {[ str "book_interval_001.md"; str "book_final_001.md" ]}) = true
  /\ ErrorProcessing (str "broken.pdf") FileDataError ∈ console run.2.
Proof.
  vm_compute. repeat split. do 5 apply list_elem_of_further. apply list_elem_of_here.
Qed.

Lemma process_page_unparsable_raises_witness :
  process_page (H := Demo.chatty) (str "page text") [Demo.fact] 0 Demo.book Demo.empty_world
  = (Raise ValueError,
     {| knowledge_dir := ∅; summaries_dir := ∅;
        requests := [] ++ [page_prompt (str "page text")];
        console := [] ++ [ProcessingPage (0 + 1);
                          GeminiResponse (str "Sorry, this page is blank.")] |}).
Proof.
  apply (process_page_unparsable_raises (H := Demo.chatty) (str "page text")
           [Demo.fact] 0 Demo.book Demo.empty_world
           (str "Sorry, this page is blank.")); reflexivity.
Defined.

(** What the escaping exception costs: the book loop reports the book as
    failed after its first page, asks the model nothing more and leaves no
    knowledge file. *)
Example unparsable_page_abandons_the_book :
  let run := main (H := Demo.chatty) shipped Demo.empty_world in
  run.1 = Ok tt
  /\ length (requests run.2) = 1%nat
  /\ knowledge_dir run.2 = ∅
  /\ drop (length (console run.2) - 2) (console run.2)
     = [ErrorProcessing Demo.book ValueError; AllComplete].
Proof. vm_compute. repeat split. Qed.

Lemma process_page_extends_witness :
  (exists new_items, [Demo.fact; Demo.fact] = [Demo.fact] ++ new_items)
  /\ (length [Demo.fact] <= length [Demo.fact; Demo.fact])%nat.
Proof.
  apply (process_page_extends (H := Demo.externals) (str "page text")
           [Demo.fact] 0 Demo.book Demo.empty_world [Demo.fact; Demo.fact]
           (process_page (H := Demo.externals) (str "page text")
              [Demo.fact] 0 Demo.book Demo.empty_world).2).
  vm_compute. reflexivity.
Defined.

Lemma process_page_no_content_witness :
  exists w',
    process_page (H := Demo.skipping) (str "page text") [Demo.fact] 0 Demo.book
      Demo.empty_world = (Ok [Demo.fact], w')
    /\ knowledge_dir w' !! knowledge_file Demo.book
       = Some (File (Json (VDict [(str "knowledge", VList [Demo.fact])])))
    /\ load_existing_knowledge Demo.book w'
       = (Ok [Demo.fact],
          printed (LoadedExisting (length [Demo.fact])) (printed LoadingExisting w'))
    /\ summaries_dir w' = summaries_dir Demo.empty_world.
Proof.
  apply (process_page_no_content (H := Demo.skipping) (str "page text")
           [Demo.fact] 0 Demo.book Demo.empty_world Demo.skip_answer Demo.parsed_skip).
  - reflexivity.
  - vm_compute. reflexivity.
  - reflexivity.
  - vm_compute. discriminate.
Defined.

Lemma filter_knowledge_eligible_witness :
  let knowledge_base :=
    [VStr (str "a short point");
     VDict [(str "point", VStr (str "a point in a record"))];
     VStr (concat (repeat (str "word ") 51));
     VInt 7] in
  let kept := filter (fun item => eligible item = true) knowledge_base in
  (filter_knowledge knowledge_base Demo.empty_world = (Ok kept, Demo.empty_world)
   /\ (forall item, item ∈ kept <-> item ∈ knowledge_base /\ eligible item = true)
   /\ sublist kept knowledge_base)
  /\ (exists kept,
        filter_knowledge [VDict [(str "page", VInt 3)]; VInt 7] Demo.empty_world
          = (Ok kept, Demo.empty_world)
        /\ sublist kept [VDict [(str "page", VInt 3)]; VInt 7]
        /\ forall item,
             item ∈ kept
             <-> item ∈ [VDict [(str "page", VInt 3)]; VInt 7]
                 /\ (eligible item = true
                     \/ exists d, item = VDict d /\ lookup_key (str "point") d = None))
  /\ filter_knowledge [Demo.fact; VDict [(str "point", VInt 5)]] Demo.empty_world
     = (Raise AttributeError, Demo.empty_world).
Proof.
  intros knowledge_base kept. split; [|split].
  - apply (filter_knowledge_eligible knowledge_base Demo.empty_world).
    repeat constructor. simpl. eexists. reflexivity.
  - apply (filter_knowledge_eligible [VDict [(str "page", VInt 3)]; VInt 7]
             Demo.empty_world). reflexivity.
  - apply (filter_knowledge_eligible [Demo.fact; VDict [(str "point", VInt 5)]]
             Demo.empty_world). reflexivity.
Defined.

(** C4 as stated fails: a record without a [point] is kept although it has
    no textual content of at most 50 words, here with more than 50 words
    under another key, and a record whose [point] is a number makes the
    filter raise instead of excluding the item. *)
Lemma record_without_point_is_kept :
  let wordy := VDict [(str "note", VStr (concat (repeat (str "word ") 51)))] in
  eligible wordy = false
  /\ eligible (VDict []) = false
  /\ filter_knowledge [wordy; VDict []] Demo.empty_world
     = (Ok [wordy; VDict []], Demo.empty_world)
  /\ eligible (VDict [(str "point", VInt 5)]) = false
  /\ filter_knowledge [VDict [(str "point", VInt 5)]] Demo.empty_world
     = (Raise AttributeError, Demo.empty_world).
Proof. vm_compute. repeat split. Qed.

Example filter_keeps_the_short_items :
  (filter_knowledge
     [VStr (str "a short point");
      VDict [(str "point", VStr (str "a point in a record"))];
      VStr (concat (repeat (str "word ") 51));
      VInt 7] Demo.empty_world).1
  = Ok [VStr (str "a short point");
        VDict [(str "point", VStr (str "a point in a record"))]].
Proof. vm_compute. reflexivity. Qed.

Lemma analysis_value_error_recovered_witness :
  exists w',
    analyze_knowledge_base (H := Demo.blocked) [Demo.fact] Demo.book Demo.empty_world
      = (Ok [], w')
    /\ knowledge_dir w' = knowledge_dir Demo.empty_world
    /\ summaries_dir w' = summaries_dir Demo.empty_world
    /\ last (console w') = Some (ErrorGeneratingAnalysis ValueError).
Proof.
  apply (analysis_value_error_recovered (H := Demo.blocked) [Demo.fact] Demo.book
           Demo.empty_world ValueError).
  - discriminate.
  - right. split; reflexivity.
  - reflexivity.
Defined.

(** C7 as stated fails: when the service refuses the request, the exception
    leaves the summariser. *)
Lemma analysis_outage_propagates :
  generate_content (Externals := Demo.outage) 0
    (analysis_prompt (map (py_str (Externals := Demo.outage)) [Demo.fact]))
    = RequestError GoogleAPIError
  /\ (analyze_knowledge_base (H := Demo.outage) [Demo.fact] Demo.book Demo.empty_world).1
     = Raise GoogleAPIError.
Proof. split; reflexivity. Qed.

Lemma summaries_follow_schedule_witness :
  let w' := (process_book (H := Demo.externals) shipped Demo.book [] Demo.empty_world).2 in
  let path :=
    summary_file false Demo.book
      (size (matching (summary_pattern false Demo.book) (summaries_dir Demo.empty_world))
       + 1) in
  (exists written,
     length written = 2%nat
     /\ trace w' = trace Demo.empty_world ++ expected [(20, false); (25, true)] written)
  /\ process_book (H := Demo.externals) shipped Demo.book [] Demo.empty_world
     = (print (ProcessingPages
                 (pages_to_process_of shipped
                    (Z.of_nat (length (repeat (str "page text") 25))))) ;;
        scheduled_loop (H := Demo.externals) (ANALYSIS_INTERVAL shipped)
          (pages_to_process_of shipped (Z.of_nat (length (repeat (str "page text") 25))))
          Demo.book 0 (pages_read shipped (repeat (str "page text") 25)) [] ;;
        print (BookComplete Demo.book)) Demo.empty_world
  /\ process_book (H := Demo.externals) shipped Demo.book [] Demo.empty_world
     = (print (ProcessingPages 25) ;;
        after_20 <- process_pages (H := Demo.externals) Demo.book 0
                      (take 20 (repeat (str "page text") 25)) [] ;;
        print (Progress 20 25) ;;
        summarize (H := Demo.externals) false after_20 Demo.book ;;
        after_25 <- process_pages (H := Demo.externals) Demo.book 20
                      (drop 20 (repeat (str "page text") 25)) after_20 ;;
        print (FinalPage 25 25) ;;
        summarize (H := Demo.externals) true after_25 Demo.book ;;
        print (BookComplete Demo.book)) Demo.empty_world
  /\ path = str "book_interval_001.md"
  /\ summarize (H := Demo.externals) false [Demo.fact; VInt 7] Demo.book Demo.empty_world
     = (Ok tt,
        {| knowledge_dir := knowledge_dir Demo.empty_world;
           summaries_dir :=
             <[path := File (Text (markdown_content (H := Demo.externals)
                                     (str "## Summary") Demo.book))]>
               (summaries_dir Demo.empty_world);
           requests :=
             requests Demo.empty_world
             ++ [analysis_prompt (map (py_str (Externals := Demo.externals)) [Demo.fact])];
           console :=
             console Demo.empty_world
             ++ [GeneratingAnalysis; AnalysisGenerated; SavingAnalysis false;
                 AnalysisSaved path] |})
  /\ summarize (H := Demo.externals) true [VInt 7] Demo.book Demo.empty_world
     = (Ok tt, printed SkippingSummarySave (printed SkippingAnalysis Demo.empty_world)).
Proof.
  intros w' path.
  destruct (summaries_follow_schedule (H := Demo.externals) shipped Demo.book
              (repeat (str "page text") 25) [] Demo.empty_world)
    as (Hbook & _ & Hshipped & Hsummary & Htrace & _).
  destruct Hshipped as (Hsteps & _ & Hrun); [reflexivity..|].
  split; [|split; [|split; [|split; [|split]]]].
  - destruct (Htrace w') as (written & Hlen & Hwritten);
      [reflexivity | vm_compute; reflexivity |].
    rewrite Hsteps in Hlen, Hwritten.
    exists written. split; [exact Hlen | exact Hwritten].
  - apply Hbook. reflexivity.
  - apply Hrun. reflexivity.
  - vm_compute. reflexivity.
  - destruct (Hsummary false [Demo.fact; VInt 7] [Demo.fact] Demo.empty_world)
      as (_ & Hwrite & _); [reflexivity|].
    apply Hwrite.
    + discriminate.
    + reflexivity.
    + discriminate.
    + apply glob_literal_str_checked. reflexivity.
    + vm_compute. discriminate.
  - destruct (Hsummary true [VInt 7] [] Demo.empty_world) as (Hskip & _); [reflexivity|].
    by apply Hskip.
Defined.

(** C3 as stated fails: on a book of 25 pages that the model finds empty,
    with the interval 20 and no page limit, the writer is called after
    page 20 and after page 25 and writes no summary at all. *)
Lemma blank_book_writes_no_summary :
  let run := main (H := Demo.skipping) shipped Demo.empty_world in
  run.1 = Ok tt
  /\ trace run.2 = [Due 20 false; Skipped; Due 25 true; Skipped]
  /\ summaries_dir run.2 = ∅
  /\ knowledge_dir run.2 !! knowledge_file Demo.book
     = Some (File (Json (knowledge_document []))).
Proof. vm_compute. repeat split. Qed.

Lemma book_error_is_caught_witness :
  let w1 := printed StartingFresh (printed (ProcessingBook (str "broken.pdf")) Demo.empty_world) in
  book_loop (H := Demo.externals) shipped [str "broken.pdf"; Demo.book] Demo.empty_world
  = book_loop (H := Demo.externals) shipped [Demo.book]
      (printed (ErrorProcessing (str "broken.pdf") FileDataError) w1).
Proof.
  intros w1.
  apply (book_error_is_caught (H := Demo.externals) shipped (str "broken.pdf")
           [Demo.book] [] Demo.empty_world w1 w1 FileDataError).
  - vm_compute. reflexivity.
  - reflexivity.
  - reflexivity.
Defined.

(** C9 as stated fails: an error while loading the knowledge base of the
    first document ends the whole batch; the second document is never
    opened. *)
Lemma load_error_ends_the_batch :
  main (H := Demo.externals) shipped Demo.squatted
  = (Raise IsADirectoryError,
     {| knowledge_dir := {[ str "broken_knowledge.json" := Dir ]};
        summaries_dir := ∅;
        requests := [];
        console := [Instructions; MainInputDir;
                    PdfFiles [str "broken.pdf"; Demo.book];
                    ProcessingBook (str "broken.pdf"); LoadingExisting] |}).
Proof. vm_compute. reflexivity. Qed.

Lemma knowledge_saved_then_cleared_witness :
  knowledge_dir Demo.interrupted !! knowledge_file Demo.book
    = Some (File (Json (knowledge_document (repeat Demo.fact 11))))
  /\ load_existing_knowledge Demo.book Demo.interrupted
     = (Ok (repeat Demo.fact 11),
        printed (LoadedExisting (length (repeat Demo.fact 11)))
          (printed LoadingExisting Demo.interrupted))
  /\ exists w'',
       (setup_directories ;; load_existing_knowledge Demo.book) Demo.interrupted = (Ok [], w'')
       /\ console w'' = console Demo.interrupted ++ [StartingFresh].
Proof.
  apply (knowledge_saved_then_cleared (H := Demo.externals) shipped 25 Demo.book 0
           (repeat (str "page text") 11) [] (repeat Demo.fact 11)
           Demo.empty_world Demo.interrupted).
  - discriminate.
  - vm_compute. reflexivity.
Defined.

(** C1 as stated fails: the run that follows an interrupted one does not
    load the 11 items the interrupted run left on disk; it starts the book
    from the empty list and ends with the 25 items of its own pages. *)
Lemma next_run_starts_fresh :
  let run := main (H := Demo.externals) shipped Demo.interrupted in
  knowledge_dir Demo.interrupted !! str "book_knowledge.json"
    = Some (File (Json (knowledge_document (repeat Demo.fact 11))))
  /\ run.1 = Ok tt
  /\ List.filter Demo.names_book_and_load
       (drop (length (console Demo.interrupted)) (console run.2))
     = [ProcessingBook (str "broken.pdf"); StartingFresh;
        ProcessingBook Demo.book; StartingFresh]
  /\ knowledge_dir run.2 !! str "book_knowledge.json"
     = Some (File (Json (knowledge_document (repeat Demo.fact 25)))).
Proof. vm_compute. repeat split. Qed.

Lemma summaries_numbered_in_sequence_witness :
  let three :=
    (save_summary (H := Demo.externals) (str "one") false Demo.book ;;
     save_summary (H := Demo.externals) (str "two") false Demo.book ;;
     save_summary (H := Demo.externals) (str "three") false Demo.book) in
  let names : gset pystr :=
    {[ str "book_interval_001.md"; str "book_interval_002.md";
       str "book_interval_003.md" ]} in
  (exists w', three Demo.empty_world = (Ok tt, w') /\ dom (summaries_dir w') = names)
  /\ (exists w',
        (setup_directories ;; three) Demo.gap = (Ok tt, w')
        /\ dom (summaries_dir w') = names)
  /\ (let w' :=
        (page_loop (H := Demo.externals) shipped 25 Demo.book 0
           (repeat (str "page text") 25) [] Demo.empty_world).2 in
      summaries_dir Demo.empty_world ⊆ summaries_dir w'
      /\ exists more_intervals more_finals,
           in_sequence Demo.book (summaries_dir w')
             (0 + more_intervals) (0 + more_finals)).
Proof.
  intros three names.
  destruct (summaries_numbered_in_sequence (H := Demo.externals)
              (str "one") (str "two") (str "three") false Demo.book Demo.empty_world 0)
    as (_ & Hrow & _ & Hpages);
    [apply glob_literal_str_checked; reflexivity | discriminate..|].
  destruct (summaries_numbered_in_sequence (H := Demo.externals)
              (str "one") (str "two") (str "three") false Demo.book Demo.gap 0)
    as (_ & _ & Hstart & _);
    [apply glob_literal_str_checked; reflexivity | discriminate..|].
  split; [|split].
  - destruct Hrow as (w' & Hrun & Hdir & _); [vm_compute; reflexivity|].
    exists w'. split; [exact Hrun|]. rewrite Hdir. vm_compute. reflexivity.
  - destruct Hstart as (w' & Hrun & Hdir & _).
    { intros entry Hentry. unfold Demo.gap in Hentry. simpl in Hentry.
      apply lookup_singleton_Some in Hentry as [_ Hentry]. discriminate. }
    exists w'. split; [exact Hrun|]. rewrite Hdir. vm_compute. reflexivity.
  - apply (Hpages shipped 25 0 (repeat (str "page text") 25) [] 0%nat 0%nat).
    split; vm_compute; reflexivity.
Defined.

(** The writer on its own does not look at the name it picks: from a
    directory that holds the second interval summary of the book but not the
    first, it counts one file, picks the number 002 and replaces the file.
    Start-up deletes the files of earlier runs, so no run of [main] meets
    this directory. *)
Example save_summary_after_a_gap :
  let run := save_summary (H := Demo.externals) (str "new summary") false Demo.book Demo.gap in
  summaries_dir Demo.gap !! str "book_interval_002.md"
    = Some (File (Text (str "old summary")))
  /\ run.1 = Ok tt
  /\ summaries_dir run.2 !! str "book_interval_002.md"
     = Some (File (Text (markdown_content (H := Demo.externals) (str "new summary") Demo.book)))
  /\ size (summaries_dir run.2) = 1%nat
  /\ (setup_directories Demo.gap).2 = Demo.empty_world.
Proof. vm_compute. repeat split. Qed.

(** C8 as stated fails: in one run of [main] from empty directories, on an
    input directory that holds [book_interval_vol2.pdf] beside [book.pdf],
    the summaries of the first book match the interval pattern of the
    second, and the three interval summaries written for [book.pdf] are
    numbered 003, 004 and 005: there is no [book_interval_001.md]. *)
Lemma interval_summaries_do_not_start_at_001 :
  let run := main (H := Demo.two_volumes) shipped Demo.empty_world in
  let summary :=
    File (Text (markdown_content (H := Demo.two_volumes) (str "## Summary") Demo.book)) in
  run.1 = Ok tt
  /\ bool_decide
       (dom (summaries_dir run.2)
        = {[ str "book_interval_vol2_interval_001.md";
             str "book_interval_vol2_final_001.md";
             str "book_interval_003.md"; str "book_interval_004.md";
             str "book_interval_005.md"; str "book_final_001.md" ]}) = true
  /\ summaries_dir run.2 !! str "book_interval_001.md" = None
  /\ summaries_dir run.2 !! str "book_interval_003.md" = Some summary
  /\ summaries_dir run.2 !! str "book_interval_004.md" = Some summary
  /\ summaries_dir run.2 !! str "book_interval_005.md" = Some summary.
Proof. vm_compute. repeat split. Qed.

(** ** More of the script *)

(** *** Clearing the output directories *)

Lemma directories_of_idemp (m : gmap pystr node) :
  directories_of (directories_of m) = directories_of m.
Proof.
  apply map_eq. intros name. apply option_eq. intros x.
  unfold directories_of. rewrite !map_lookup_filter_Some. tauto.
Qed.

(** X1: [setup_directories] deletes every regular file of the two output
    directories and nothing else: a name is still there afterwards exactly
    when it was a directory, the console and the requests are as before, and
    running it a second time changes nothing. *)
Theorem setup_directories_keeps_directories_only (w : World) :
  let w' := {| knowledge_dir := directories_of (knowledge_dir w);
               summaries_dir := directories_of (summaries_dir w);
               requests := requests w; console := console w |} in
  setup_directories w = (Ok tt, w')
  /\ (forall name, knowledge_dir w' !! name
                   = match knowledge_dir w !! name with
                     | Some Dir => Some Dir
                     | _ => None
                     end)
  /\ (forall name, summaries_dir w' !! name
                   = match summaries_dir w !! name with
                     | Some Dir => Some Dir
                     | _ => None
                     end)
  /\ setup_directories w' = (Ok tt, w').
Proof.
  intros w'.
  assert (forall m name, directories_of m !! name
                         = match m !! name with Some Dir => Some Dir | _ => None end)
    as Hlookup.
  { intros m name. unfold directories_of.
    destruct (m !! name) as [[c|]|] eqn:Hname.
    - apply map_lookup_filter_None. right. intros x Hx. simplify_eq. done.
    - by apply map_lookup_filter_Some.
    - apply map_lookup_filter_None. by left. }
  split; [|split; [|split]].
  - unfold setup_directories, bind. rewrite clear_files_run. simpl.
    by rewrite clear_files_run.
  - intros name. apply Hlookup.
  - intros name. apply Hlookup.
  - unfold setup_directories, bind. rewrite clear_files_run. simpl.
    rewrite clear_files_run. simpl. subst w'. simpl.
    by rewrite !directories_of_idemp.
Qed.

(** *** Saving and loading the knowledge file *)

Section Store.

Context `{Externals}.

Lemma save_knowledge_base_run (knowledge_base : list value) (pdf_name : pystr) (w : World) :
  knowledge_dir w !! knowledge_file pdf_name <> Some Dir ->
  save_knowledge_base knowledge_base pdf_name w
  = (Ok tt,
     set_entries KNOWLEDGE_DIR
       (<[knowledge_file pdf_name := File (Json (knowledge_document knowledge_base))]>
          (knowledge_dir w))
       (printed (SavingKnowledgeBase (length knowledge_base)) w)).
Proof.
  intros Hfile. unfold save_knowledge_base, bind, print, open_write. simpl.
  by destruct (knowledge_dir w !! knowledge_file pdf_name) as [[c|]|].
Qed.

(** X2: Saving a list and loading it back returns the same list, whatever the
    file held before, and a second save replaces the first. *)
Theorem save_then_load_round_trip (first second : list value) (pdf_name : pystr)
    (w : World) :
  knowledge_dir w !! knowledge_file pdf_name <> Some Dir ->
  ((save_knowledge_base second pdf_name ;; load_existing_knowledge pdf_name) w).1
    = Ok second
  /\ ((save_knowledge_base first pdf_name ;;
       save_knowledge_base second pdf_name ;;
       load_existing_knowledge pdf_name) w).1 = Ok second.
Proof.
  intros Hfile. split.
  - unfold bind at 1. rewrite save_knowledge_base_run by done.
    erewrite load_existing_knowledge_saved; [done|]. simpl. apply lookup_insert_eq.
  - unfold bind at 1. rewrite save_knowledge_base_run by done.
    unfold bind at 1. rewrite save_knowledge_base_run.
    + erewrite load_existing_knowledge_saved; [done|]. simpl. apply lookup_insert_eq.
    + simpl. by rewrite lookup_insert_eq.
Qed.

(** X3: [load_or_create_knowledge_base] returns an empty dict when the document
    has no file, and the whole document, [knowledge] key included, of a
    file that [save_knowledge_base] wrote. *)
Theorem load_or_create_knowledge_base_round_trip (knowledge_base : list value)
    (pdf_name : pystr) (w : World) :
  knowledge_dir w !! knowledge_file pdf_name <> Some Dir ->
  (knowledge_dir w !! knowledge_file pdf_name = None ->
   load_or_create_knowledge_base pdf_name w = (Ok (VDict []), w))
  /\ ((save_knowledge_base knowledge_base pdf_name ;;
       load_or_create_knowledge_base pdf_name) w).1
     = Ok (knowledge_document knowledge_base).
Proof.
  intros Hfile. split.
  - intros Hnone. unfold load_or_create_knowledge_base, bind, path_exists. simpl.
    rewrite Hnone. by rewrite bool_decide_eq_false_2 by by intros [? ?].
  - unfold bind at 1. rewrite save_knowledge_base_run by done.
    unfold load_or_create_knowledge_base, bind, path_exists, open_read. simpl.
    rewrite lookup_insert_eq. rewrite bool_decide_eq_true_2 by eauto.
    simpl. by rewrite lookup_insert_eq.
Qed.

(** X4: A knowledge file that is not what [save_knowledge_base] writes makes
    [load_existing_knowledge] raise: [JSONDecodeError] when it is not JSON,
    [TypeError] when the document is not an object, [KeyError] when the
    object has no [knowledge] key (where [load_or_create_knowledge_base]
    returns the object).  The directories are left as they are. *)
Theorem load_existing_knowledge_rejects (pdf_name : pystr) (w : World) (c : content) :
  knowledge_dir w !! knowledge_file pdf_name = Some (File c) ->
  let outcome := load_existing_knowledge pdf_name w in
  knowledge_dir outcome.2 = knowledge_dir w
  /\ summaries_dir outcome.2 = summaries_dir w
  /\ match c with
     | Text _ => outcome.1 = Raise JSONDecodeError
     | Json (VDict d) =>
         lookup_key (str "knowledge") d = None ->
         outcome.1 = Raise KeyError
         /\ (load_or_create_knowledge_base pdf_name w).1 = Ok (VDict d)
     | Json _ => outcome.1 = Raise TypeError
     end.
Proof.
  intros Hfile outcome. subst outcome.
  unfold load_existing_knowledge, load_or_create_knowledge_base,
    bind, path_exists, print, open_read. simpl.
  rewrite Hfile. rewrite bool_decide_eq_true_2 by eauto. simpl.
  rewrite !Hfile. simpl.
  destruct c as [v|s]; [|by repeat split].
  destruct v as [| | | | | |d]; try by repeat split.
  simpl. destruct (lookup_key (str "knowledge") d) as [v|] eqn:Hkey.
  - destruct v; by repeat split.
  - by repeat split.
Qed.

End Store.

(** *** One page, one request *)

Lemma requests_try_except {A} (m : M A) (cls : exn) (handler : exn -> M A) (w : World) :
  (forall e, preserves requests (handler e)) ->
  requests (try_except m cls handler w).2 = requests (m w).2.
Proof.
  intros Hh. unfold try_except. destruct (m w) as [[a|e|] w1]; try done.
  destruct (issubclass e cls); [apply Hh | done].
Qed.

Section OnePage.

Context `{Externals}.

Lemma requests_after_model {A} (prompt : pystr) (k : option pystr -> M A) (w : World) :
  (forall response, preserves requests (k response)) ->
  requests (bind (model_generate_content prompt) k w).2 = requests w ++ [prompt].
Proof.
  intros Hk. unfold bind, model_generate_content.
  destruct (generate_content (length (requests w)) prompt) as [text|e]; [|done].
  by rewrite Hk.
Qed.

(** X5: Whatever the model answers and however the call ends, [process_page]
    sends exactly one request, the prompt of the page, and leaves the
    summaries directory as it is. *)
Theorem process_page_sends_one_request (page_text : pystr)
    (current_knowledge : list value) (page_num : Z) (pdf_name : pystr) (w : World) :
  let outcome := process_page page_text current_knowledge page_num pdf_name w in
  requests outcome.2 = requests w ++ [page_prompt page_text]
  /\ summaries_dir outcome.2 = summaries_dir w.
Proof.
  intros outcome. subst outcome. split.
  - unfold process_page.
    change (requests w) with (requests (printed (ProcessingPage (page_num + 1)) w)).
    unfold bind at 1. unfold print at 1. apply requests_after_model.
    intros response. unfold save_knowledge_base, response_text, json5_loads_call,
      get, len, list_add. frame.
  - revert w.
    change (preserves summaries_dir
              (process_page page_text current_knowledge page_num pdf_name)).
    unfold process_page, save_knowledge_base, response_text, json5_loads_call,
      get, len, list_add.
    frame; by apply model_generate_content_preserves.
Qed.

(** X7: A response that parses to something other than an object (an array, a
    string, a number) makes [process_page] raise [AttributeError] after the
    response has been printed; nothing is saved. *)
Theorem process_page_rejects_non_object (page_text : pystr)
    (current_knowledge : list value) (page_num : Z) (pdf_name : pystr)
    (w : World) (text : pystr) (parsed : value) :
  generate_content (length (requests w)) (page_prompt page_text) = Response (Some text) ->
  json5_loads (strip_fences text) = Some parsed ->
  (forall d, parsed <> VDict d) ->
  process_page page_text current_knowledge page_num pdf_name w
  = (Raise AttributeError,
     {| knowledge_dir := knowledge_dir w; summaries_dir := summaries_dir w;
        requests := requests w ++ [page_prompt page_text];
        console := console w ++ [ProcessingPage (page_num + 1); GeminiResponse text] |}).
Proof.
  intros Hmodel Hparse Hparsed. unfold process_page. run.
  rewrite Hmodel. simpl. rewrite Hparse.
  destruct parsed as [| | | | | |d]; simpl; try by rewrite <- app_assoc.
  by destruct (Hparsed d).
Qed.

(** X8: An object with a truthy [has_content] whose [knowledge] is not a list
    makes [process_page] raise [TypeError]; the knowledge file is not
    written. *)
Theorem process_page_rejects_non_list (page_text : pystr)
    (current_knowledge : list value) (page_num : Z) (pdf_name : pystr)
    (w : World) (text : pystr) (d : list (pystr * value)) :
  generate_content (length (requests w)) (page_prompt page_text) = Response (Some text) ->
  json5_loads (strip_fences text) = Some (VDict d) ->
  truthy (default (VBool false) (lookup_key (str "has_content") d)) = true ->
  (forall l, default (VList []) (lookup_key (str "knowledge") d) <> VList l) ->
  let outcome := process_page page_text current_knowledge page_num pdf_name w in
  outcome.1 = Raise TypeError /\ knowledge_dir outcome.2 = knowledge_dir w.
Proof.
  intros Hmodel Hparse Htrue Hlist outcome. subst outcome.
  unfold process_page. run.
  rewrite Hmodel. simpl. rewrite Hparse. simpl. rewrite Htrue.
  destruct (default (VList []) (lookup_key (str "knowledge") d)) as [| | | | |l|]
    eqn:Hknowledge; simpl; try done.
  by destruct (Hlist l).
Qed.

(** X10: Summarising a non-empty list sends exactly one request, whatever comes
    back, and returns the text of the response when there is one. *)
Theorem analyze_knowledge_base_one_request (knowledge_base : list value)
    (pdf_name : pystr) (w : World) :
  knowledge_base <> [] ->
  let prompt := analysis_prompt (map py_str knowledge_base) in
  let outcome := analyze_knowledge_base knowledge_base pdf_name w in
  requests outcome.2 = requests w ++ [prompt]
  /\ knowledge_dir outcome.2 = knowledge_dir w
  /\ summaries_dir outcome.2 = summaries_dir w
  /\ (forall text,
        generate_content (length (requests w)) prompt = Response (Some text) ->
        outcome.1 = Ok text).
Proof.
  intros Hne prompt outcome. subst prompt outcome.
  destruct knowledge_base as [|item rest]; [done|].
  split; [|split; [|split]].
  - unfold analyze_knowledge_base.
    change (requests w) with (requests (printed GeneratingAnalysis w)).
    unfold bind at 1. unfold print at 1.
    rewrite requests_try_except by (intros e; frame).
    apply requests_after_model. intros response. unfold response_text. frame.
  - apply analyze_knowledge_base_knowledge_dir.
  - revert w.
    change (preserves summaries_dir (analyze_knowledge_base (item :: rest) pdf_name)).
    unfold analyze_knowledge_base, response_text.
    frame; by apply model_generate_content_preserves.
  - intros text Hmodel. unfold analyze_knowledge_base. run. by rewrite Hmodel.
Qed.

End OnePage.

(** *** The comprehension as a filter *)

(** X11: The comprehension of [main] raises [AttributeError] exactly when some
    record of the list has a [point] that is not a string; otherwise it
    returns, in order, the strings of at most 50 words and the records whose
    [point] has at most 50 words or is missing.  Numbers, booleans, [None]
    and lists are never kept. *)
Theorem filter_knowledge_outcome (knowledge_base : list value) (w : World) :
  filter_knowledge knowledge_base w
  = (if existsb point_without_split knowledge_base
     then (Raise AttributeError, w)
     else (Ok (filter (fun item => kept_by_comprehension item = true) knowledge_base), w))
  /\ (forall item,
        item ∈ filter (fun item => kept_by_comprehension item = true) knowledge_base ->
        (exists s, item = VStr s) \/ (exists d, item = VDict d)).
Proof.
  split; [apply filter_knowledge_run|].
  intros item [Hkept _]%list_elem_of_filter.
  destruct item; try discriminate; eauto.
Qed.

(** *** Before the first book *)

Lemma fnmatch_literal_eq (pat name : pystr) :
  glob_literal pat -> fnmatch pat name = true -> name = pat.
Proof.
  intros Hpat. revert name.
  induction Hpat as [|p pat (Hstar & Hquestion & _) _ IH]; intros [|c name]; simpl;
    try done.
  all: rewrite (proj2 (N.eqb_neq p STAR)) by done; try done.
  rewrite (proj2 (N.eqb_neq p QUESTION)) by done.
  simpl. intros [Hc%N.eqb_eq Hrest]%andb_prop. subst c. f_equal. by apply IH.
Qed.

Lemma fnmatch_star_suffix_inv (suffix name : pystr) :
  glob_literal suffix ->
  fnmatch (STAR :: suffix) name = true ->
  exists base, name = base ++ suffix.
Proof.
  intros Hsuffix. induction name as [|c name IH]; rewrite fnmatch_star_cons;
    intros [Hhere|Hlater]%orb_prop; try done.
  - exists []. by apply fnmatch_literal_eq.
  - exists []. by apply fnmatch_literal_eq.
  - destruct (IH Hlater) as [base ->]. by exists (c :: base).
Qed.

Section Startup.

Context `{Externals}.
Variable config : Config.

(** X12: [get_pdf_files] returns, in listing order, exactly the names of the
    input directory that end in [.pdf] (lower case; the bare name [.pdf]
    included). *)
Theorem get_pdf_files_selects_pdf_names (w : World) :
  exists pdf_files,
    get_pdf_files w = (Ok pdf_files, printed (PdfFiles pdf_files) w)
    /\ sublist pdf_files input_books
    /\ forall name,
         name ∈ pdf_files
         <-> name ∈ input_books /\ exists base, name = base ++ str ".pdf".
Proof.
  eexists. split; [reflexivity|]. split; [apply sublist_filter|].
  intros name. rewrite list_elem_of_filter.
  assert (glob_literal (str ".pdf")) as Hliteral
    by by apply glob_literal_str_checked.
  change (str "*.pdf") with (STAR :: str ".pdf"). split.
  - intros [Hmatch Hin]. split; [done|]. by apply fnmatch_star_suffix_inv.
  - intros [Hin [base ->]]. split; [|done]. by apply fnmatch_star_suffix.
Qed.

(** X13: At the prompt: Ctrl+C ends [main] normally after two lines on the
    console, with the directories untouched and no request sent; any other
    exception of [input()] leaves [main]. *)
Theorem main_stops_at_the_prompt (w : World) (e : exn) :
  input_enter = Some e ->
  main config w
  = if issubclass e KeyboardInterrupt
    then (Ok tt, printed Cancelled (printed Instructions w))
    else (Raise e, printed Instructions w).
Proof.
  intros Henter. unfold main, bind at 1, try_except, bind, print, call_outcome, raise.
  rewrite Henter. by destruct (issubclass e KeyboardInterrupt).
Qed.

(** X14: When the key module cannot be imported, [main] raises the import error
    after it has deleted the files of the two output directories; nothing
    else has happened. *)
Theorem main_clears_before_import (w : World) (e : exn) :
  input_enter = None ->
  import_api_key = Some e ->
  main config w
  = (Raise e,
     {| knowledge_dir := directories_of (knowledge_dir w);
        summaries_dir := directories_of (summaries_dir w);
        requests := requests w;
        console := console w ++ [Instructions; MainInputDir] |}).
Proof.
  intros Henter Hkey. unfold main, bind at 1, try_except, bind at 1 2, print.
  rewrite Henter. simpl. unfold bind at 1. simpl. unfold bind at 1.
  rewrite setup_directories_run. unfold bind at 1. rewrite Hkey. simpl.
  by rewrite <- app_assoc.
Qed.

(** X15: With no PDF in the input directory [main] still deletes the files of
    the two output directories, then reports that there is nothing to do:
    no request is sent and nothing is written. *)
Theorem main_without_pdf_files (w : World) :
  input_enter = None ->
  import_api_key = None ->
  Forall (fun name => fnmatch (str "*.pdf") name = false) input_books ->
  main config w
  = (Ok tt,
     {| knowledge_dir := directories_of (knowledge_dir w);
        summaries_dir := directories_of (summaries_dir w);
        requests := requests w;
        console := console w ++ [Instructions; MainInputDir; PdfFiles []; NoPdfFiles] |}).
Proof.
  intros Henter Hkey Hnone.
  assert (filter (fun name => fnmatch (str "*.pdf") name = true) input_books = []) as Hfiles.
  { induction Hnone as [|name names Hname _ IH]; [done|].
    rewrite filter_cons, IH. case_decide; congruence. }
  unfold main, bind at 1, try_except, bind at 1 2, print.
  rewrite Henter. simpl. unfold bind at 1. simpl. unfold bind at 1.
  rewrite setup_directories_run. unfold bind at 1. rewrite Hkey. simpl.
  unfold bind at 1, get_pdf_files, bind at 1, print. rewrite Hfiles. simpl.
  unfold printed. simpl. by rewrite <- !app_assoc.
Qed.

End Startup.

(** *** Over the pages of a book *)

Lemma elem_of_expected_due (steps : list (Z * bool)) (written : list bool)
    (page : Z) (is_final : bool) :
  Due page is_final ∈ expected steps written -> (page, is_final) ∈ steps.
Proof.
  revert written. induction steps as [|[page' is_final'] steps IH];
    intros [|wrote written]; simpl; try by intros ?%elem_of_nil.
  intros [Hhere|[Hnext|Hlater]%elem_of_cons]%elem_of_cons.
  - injection Hhere as -> ->. apply list_elem_of_here.
  - by destruct wrote.
  - apply list_elem_of_further. by eapply IH.
Qed.

Lemma elem_of_schedule_final (interval : option Z) (total : Z) (count : nat) :
  forall (i page : Z),
  (page, true) ∈ schedule interval total i count ->
  page = total /\ i + 1 <= page <= i + Z.of_nat count.
Proof.
  induction count as [|count IH]; intros i page; simpl; [by intros ?%elem_of_nil|].
  intros [Hhere|Hlater]%elem_of_app.
  - unfold due, interval_due, final_due in Hhere.
    apply elem_of_app in Hhere as [Hinterval|Hfinal].
    + destruct interval as [size|]; [|by apply elem_of_nil in Hinterval].
      destruct (negb (size =? 0) && ((i + 1) mod size =? 0) && negb (i + 1 =? total));
        [|by apply elem_of_nil in Hinterval].
      by apply list_elem_of_singleton in Hinterval.
    + destruct (i + 1 =? total) eqn:Hlast; [|by apply elem_of_nil in Hfinal].
      apply list_elem_of_singleton in Hfinal as [= ->]. lia.
  - apply IH in Hlater. lia.
Qed.

Section Pages.

Context `{Externals}.
Variable config : Config.

Lemma process_page_prefix (page_text : pystr) (current_knowledge : list value)
    (page_num : Z) (pdf_name : pystr) (w : World)
    (updated_knowledge : list value) (w' : World) :
  process_page page_text current_knowledge page_num pdf_name w = (Ok updated_knowledge, w') ->
  current_knowledge `prefix_of` updated_knowledge.
Proof.
  intros Hrun. unfold process_page in Hrun.
  apply bind_Ok in Hrun as (? & w1 & _ & Hrun).
  apply bind_Ok in Hrun as (response & w2 & _ & Hrun).
  apply bind_Ok in Hrun as (shown & w3 & _ & Hrun).
  apply bind_Ok in Hrun as (? & w4 & _ & Hrun).
  apply bind_Ok in Hrun as (updated & w5 & Htry & Hrun).
  apply bind_Ok in Hrun as (? & w6 & _ & Hrun).
  apply ret_Ok in Hrun as [-> _].
  apply try_except_Ok in Htry as [Hbody | (e & w7 & _ & _ & Hhandler)].
  - apply bind_Ok in Hbody as (text & w7 & _ & Hbody).
    apply bind_Ok in Hbody as (result & w8 & _ & Hbody).
    apply bind_Ok in Hbody as (has_content & w9 & _ & Hbody).
    apply bind_Ok in Hbody as (knowledge & w10 & _ & Hbody).
    destruct (truthy has_content).
    + apply bind_Ok in Hbody as (found & w11 & _ & Hbody).
      apply bind_Ok in Hbody as (? & w12 & _ & Hbody).
      destruct knowledge; try discriminate.
      apply ret_Ok in Hbody as [-> _]. by eexists.
    + apply bind_Ok in Hbody as (? & w11 & _ & Hbody).
      by apply ret_Ok in Hbody as [-> _].
  - apply bind_Ok in Hhandler as (? & w8 & _ & Hhandler).
    by apply ret_Ok in Hhandler as [-> _].
Qed.

(** X16: Over any number of pages the knowledge base only grows: the list the
    page loop returns starts with the list it was given, summaries and
    skipped pages included. *)
Theorem page_loop_only_appends (pages_to_process : Z) (pdf_name : pystr)
    (pages : list pystr) (page_num : Z) (knowledge_base updated : list value)
    (w w' : World) :
  page_loop config pages_to_process pdf_name page_num pages knowledge_base w
    = (Ok updated, w') ->
  knowledge_base `prefix_of` updated
  /\ (length knowledge_base <= length updated)%nat.
Proof.
  intros Hrun.
  assert (knowledge_base `prefix_of` updated) as Hprefix.
  { revert page_num knowledge_base w Hrun.
    induction pages as [|page_text rest IH]; intros page_num kb w Hrun; simpl in Hrun.
    - by apply ret_Ok in Hrun as [-> _].
    - apply bind_Ok in Hrun as (kb1 & w1 & Hstep & Hrun).
      apply IH in Hrun. etrans; [|exact Hrun].
      unfold page_step in Hstep.
      apply bind_Ok in Hstep as (kb2 & w2 & Hpage & Hstep).
      apply bind_Ok in Hstep as ([] & w3 & _ & Hstep).
      apply bind_Ok in Hstep as ([] & w4 & _ & [-> _]%ret_Ok).
      by eapply process_page_prefix. }
  split; [done|]. by apply prefix_length.
Qed.

(** X17: A page limit above the number of pages of the document: every page is
    read, interval summaries are made, and no final summary is ever due,
    since no page number equals the limit. *)
Theorem no_final_summary_beyond_page_count (pdf_name : pystr) (pages : list pystr)
    (knowledge_base : list value) (w w' : World) (limit : Z) :
  fitz_open pdf_name = Document pages ->
  TEST_PAGES config = Some limit ->
  Z.of_nat (length pages) < limit ->
  process_book config pdf_name knowledge_base w = (Ok tt, w') ->
  pages_read config pages = pages
  /\ exists shown,
       trace w' = trace w ++ shown
       /\ (forall page, Due page true ∉ shown)
       /\ Wrote true ∉ shown.
Proof.
  intros Hopen Hlimit Hbeyond Hrun.
  assert (pages_read config pages = pages) as Hread.
  { unfold pages_read, pages_to_process_of. rewrite Hlimit.
    rewrite Z.min_r by lia. rewrite Nat2Z.id. apply firstn_all. }
  split; [done|].
  unfold process_book in Hrun. rewrite Hopen in Hrun.
  apply bind_Ok in Hrun as (? & w1 & [_ ->]%print_run & Hrun).
  apply bind_Ok in Hrun as (updated & w2 & Hloop & [_ ->]%print_run).
  apply page_loop_trace in Hloop as (written & Hlen & Htrace).
  eexists. split.
  { rewrite trace_printed. simpl. rewrite app_nil_r.
    rewrite Htrace, trace_printed. simpl. by rewrite app_nil_r. }
  rewrite Hread. unfold pages_to_process_of. rewrite Hlimit.
  assert (forall page, (page, true) ∉ schedule (ANALYSIS_INTERVAL config) limit 0 (length pages))
    as Hnone.
  { intros page Hin. apply elem_of_schedule_final in Hin. lia. }
  split.
  - intros page Hin%elem_of_expected_due. by eapply Hnone.
  - clear Htrace Hlen. revert written.
    induction (schedule (ANALYSIS_INTERVAL config) limit 0 (length pages))
      as [|[page' is_final] steps IH]; intros [|wrote written]; simpl;
      try by intros ?%elem_of_nil.
    intros [Hhere|[Hnext|Hlater]%elem_of_cons]%elem_of_cons; [done| |].
    + destruct wrote; [|done]. injection Hnext as <-.
      eapply Hnone. apply list_elem_of_here.
    + eapply IH; [|exact Hlater].
      intros page0 Hin. eapply Hnone. by apply list_elem_of_further.
Qed.

(** X18: A document without pages, or a page limit of zero or less: no page is
    read, no request is sent, nothing is written, no summary is made, and
    the book is reported complete. *)
Theorem process_book_without_pages (pdf_name : pystr) (pages : list pystr)
    (knowledge_base : list value) (w : World) :
  fitz_open pdf_name = Document pages ->
  pages = [] \/ (exists limit, TEST_PAGES config = Some limit /\ limit <= 0) ->
  process_book config pdf_name knowledge_base w
  = (Ok tt,
     {| knowledge_dir := knowledge_dir w; summaries_dir := summaries_dir w;
        requests := requests w;
        console := console w
                   ++ [ProcessingPages (pages_to_process_of config (Z.of_nat (length pages)));
                       BookComplete pdf_name] |}).
Proof.
  intros Hopen Hnone.
  assert (pages_read config pages = []) as Hread.
  { unfold pages_read. destruct Hnone as [->|(limit & Hlimit & Hle)];
      [apply take_nil|].
    unfold pages_to_process_of. rewrite Hlimit.
    replace (Z.to_nat (Z.min limit (Z.of_nat (length pages)))) with 0%nat by lia.
    done. }
  unfold process_book. rewrite Hopen, Hread. unfold bind, print, printed. simpl.
  by rewrite <- app_assoc.
Qed.

(** X19: Two documents whose names differ only by occurrences of [.pdf] share
    one knowledge file: what the page loop saved for the first is what
    loading for the second returns. *)
Theorem same_stem_shares_knowledge (pages_to_process : Z) (pdf_name other : pystr)
    (page_num : Z) (pages : list pystr) (knowledge_base updated : list value)
    (w w' : World) :
  stem other = stem pdf_name ->
  pages <> [] ->
  page_loop config pages_to_process pdf_name page_num pages knowledge_base w
    = (Ok updated, w') ->
  load_existing_knowledge other w'
  = (Ok updated,
     printed (LoadedExisting (length updated)) (printed LoadingExisting w')).
Proof.
  intros Hstem Hpages Hrun.
  apply load_existing_knowledge_saved.
  unfold knowledge_file. rewrite Hstem.
  by eapply page_loop_saves.
Qed.

End Pages.

(** *** Counting summaries *)

Section Counting.

Context `{Externals}.

(** X20: Interval and final summaries of a document are counted apart: a call of
    the writer for one kind leaves the entries counted for the other kind
    as they were. *)
Theorem summary_kinds_counted_apart (summary : pystr) (is_final : bool)
    (pdf_name : pystr) (w w' : World) :
  glob_literal (stem pdf_name) ->
  save_summary summary is_final pdf_name w = (Ok tt, w') ->
  matching (summary_pattern (negb is_final) pdf_name) (summaries_dir w')
  = matching (summary_pattern (negb is_final) pdf_name) (summaries_dir w).
Proof.
  intros Hstem Hrun. destruct summary as [|c summary].
  - unfold save_summary in Hrun. by apply print_run in Hrun as [_ ->].
  - apply save_summary_counts in Hrun; [|done]. rewrite Hrun.
    unfold matching. apply map_filter_insert_not. intros y. simpl.
    by rewrite summary_file_other_kind.
Qed.

(** X21: For a document name without glob metacharacters, the pattern of the
    document also counts the summaries of every document whose name
    continues its own with [_interval_] or [_final_]: with one such file in
    the directory, the first summary of that kind written for the shorter
    name is not numbered 001. *)
Theorem longer_name_raises_the_count (summary : pystr) (is_final : bool)
    (pdf_name other : pystr) (more : pystr) (n : nat) (x : node) (w w' : World) :
  glob_literal (stem pdf_name) ->
  stem other
  = stem pdf_name ++ (if is_final then str "_final_" else str "_interval_") ++ more ->
  summaries_dir w !! summary_file is_final other n = Some x ->
  summary <> [] ->
  save_summary summary is_final pdf_name w = (Ok tt, w') ->
  exists number,
    (2 <= number)%nat
    /\ summaries_dir w'
       = <[summary_file is_final pdf_name number
             := File (Text (markdown_content summary pdf_name))]> (summaries_dir w).
Proof.
  intros Hstem Hother Hfile Hsummary Hrun.
  apply save_summary_counts in Hrun; [|done].
  eexists. split; [|exact Hrun].
  assert (matching (summary_pattern is_final pdf_name) (summaries_dir w)
            !! summary_file is_final other n = Some x) as Hcounted.
  { apply map_lookup_filter_Some. split; [done|]. simpl.
    unfold summary_pattern, summary_file. rewrite Hother.
    rewrite <- !app_assoc. rewrite fnmatch_literal_prefix by done.
    destruct is_final.
    - change (str "_final_*.md") with (str "_final_" ++ STAR :: str ".md").
      rewrite fnmatch_literal_prefix by by apply glob_literal_str_checked.
      rewrite !app_assoc. apply fnmatch_star_suffix. by apply glob_literal_str_checked.
    - change (str "_interval_*.md") with (str "_interval_" ++ STAR :: str ".md").
      rewrite fnmatch_literal_prefix by by apply glob_literal_str_checked.
      rewrite !app_assoc. apply fnmatch_star_suffix. by apply glob_literal_str_checked. }
  destruct (decide (size (matching (summary_pattern is_final pdf_name) (summaries_dir w))
                    = 0%nat)) as [Hzero|Hpos]; [|lia].
  apply map_size_empty_iff in Hzero. rewrite Hzero in Hcounted.
  by rewrite lookup_empty in Hcounted.
Qed.

End Counting.

Section Requests.

Context `{Externals}.

(** X9: A page request that fails, by raising or by coming back without text,
    leaves [process_page] with that exception ([ValueError] for a missing
    text): the page is not parsed and the knowledge file is not written. *)
Theorem process_page_request_failure (page_text : pystr)
    (current_knowledge : list value) (page_num : Z) (pdf_name : pystr)
    (w : World) (e : exn) :
  let answer := generate_content (length (requests w)) (page_prompt page_text) in
  answer = RequestError e \/ (answer = Response None /\ e = ValueError) ->
  process_page page_text current_knowledge page_num pdf_name w
  = (Raise e,
     {| knowledge_dir := knowledge_dir w; summaries_dir := summaries_dir w;
        requests := requests w ++ [page_prompt page_text];
        console := console w ++ [ProcessingPage (page_num + 1)] |}).
Proof.
  intros answer Hfail. subst answer. unfold process_page. run.
  by destruct Hfail as [-> | [-> ->]].
Qed.

End Requests.

(** *** Runs of the added results *)

Lemma save_then_load_round_trip_witness :
  ((save_knowledge_base [Demo.fact] Demo.book ;;
    load_existing_knowledge Demo.book) Demo.leftovers).1 = Ok [Demo.fact]
  /\ ((save_knowledge_base [] Demo.book ;;
       save_knowledge_base [Demo.fact] Demo.book ;;
       load_existing_knowledge Demo.book) Demo.leftovers).1 = Ok [Demo.fact].
Proof.
  apply (save_then_load_round_trip [] [Demo.fact] Demo.book Demo.leftovers).
  vm_compute. discriminate.
Defined.

Lemma load_or_create_knowledge_base_round_trip_witness :
  load_or_create_knowledge_base Demo.book Demo.empty_world
    = (Ok (VDict []), Demo.empty_world)
  /\ ((save_knowledge_base [Demo.fact] Demo.book ;;
       load_or_create_knowledge_base Demo.book) Demo.empty_world).1
     = Ok (knowledge_document [Demo.fact]).
Proof.
  destruct (load_or_create_knowledge_base_round_trip [Demo.fact] Demo.book
              Demo.empty_world) as [Hmissing Hsaved].
  - vm_compute. discriminate.
  - split; [apply Hmissing; reflexivity | exact Hsaved].
Defined.

Lemma load_existing_knowledge_rejects_witness :
  (load_existing_knowledge Demo.book Demo.leftovers).1 = Raise KeyError
  /\ (load_or_create_knowledge_base Demo.book Demo.leftovers).1 = Ok (VDict []).
Proof.
  destruct (load_existing_knowledge_rejects Demo.book Demo.leftovers (Json (VDict [])))
    as (_ & _ & Hkey).
  - vm_compute. reflexivity.
  - apply Hkey. reflexivity.
Defined.

Lemma process_page_appends_witness :
  exists w',
    process_page (H := Demo.externals) (str "page text") [Demo.fact] 0 Demo.book
      Demo.empty_world = (Ok ([Demo.fact] ++ [Demo.fact]), w')
    /\ knowledge_dir w' !! knowledge_file Demo.book
       = Some (File (Json (knowledge_document ([Demo.fact] ++ [Demo.fact]))))
    /\ knowledge_dir w' !! knowledge_file Demo.book
       = Some (File (Json (VDict [(str "knowledge", VList ([Demo.fact] ++ [Demo.fact]))])))
    /\ load_existing_knowledge Demo.book w'
       = (Ok ([Demo.fact] ++ [Demo.fact]),
          printed (LoadedExisting (length ([Demo.fact] ++ [Demo.fact])))
            (printed LoadingExisting w')).
Proof.
  apply (process_page_appends (H := Demo.externals) (str "page text") [Demo.fact] 0
           Demo.book Demo.empty_world Demo.page_answer
           [(str "has_content", VBool true); (str "knowledge", VList [Demo.fact])]).
  - reflexivity.
  - vm_compute. reflexivity.
  - reflexivity.
  - reflexivity.
  - vm_compute. discriminate.
Defined.

Lemma process_page_rejects_non_object_witness :
  (process_page (H := Demo.array_answer) (str "page text") [] 0 Demo.book
     Demo.empty_world).1 = Raise AttributeError.
Proof.
  rewrite (process_page_rejects_non_object (H := Demo.array_answer) (str "page text")
             [] 0 Demo.book Demo.empty_world (str "['a fact']") (VList [Demo.fact]));
    [reflexivity | reflexivity | reflexivity | discriminate].
Defined.

Lemma process_page_rejects_non_list_witness :
  let outcome :=
    process_page (H := Demo.string_answer) (str "page text") [] 0 Demo.book
      Demo.empty_world in
  outcome.1 = Raise TypeError /\ knowledge_dir outcome.2 = knowledge_dir Demo.empty_world.
Proof.
  apply (process_page_rejects_non_list (H := Demo.string_answer) (str "page text")
           [] 0 Demo.book Demo.empty_world
           (str "{has_content: true, knowledge: 'a fact'}") Demo.text_knowledge).
  - reflexivity.
  - reflexivity.
  - reflexivity.
  - discriminate.
Defined.

Lemma process_page_request_failure_witness :
  (process_page (H := Demo.outage) (str "page text") [] 0 Demo.book
     Demo.empty_world).1 = Raise GoogleAPIError.
Proof.
  rewrite (process_page_request_failure (H := Demo.outage) (str "page text") [] 0
             Demo.book Demo.empty_world GoogleAPIError); [reflexivity|].
  left. reflexivity.
Defined.

Lemma analyze_knowledge_base_one_request_witness :
  let outcome :=
    analyze_knowledge_base (H := Demo.externals) [Demo.fact] Demo.book Demo.empty_world in
  length (requests outcome.2) = 1%nat /\ outcome.1 = Ok (str "## Summary").
Proof.
  intros outcome.
  destruct (analyze_knowledge_base_one_request (H := Demo.externals) [Demo.fact]
              Demo.book Demo.empty_world) as (Hrequests & _ & _ & Htext).
  - discriminate.
  - subst outcome. rewrite Hrequests. split; [reflexivity|].
    apply Htext. reflexivity.
Defined.

Lemma main_stops_at_the_prompt_witness :
  main (H := Demo.cancelling) shipped Demo.leftovers
    = (Ok tt, printed Cancelled (printed Instructions Demo.leftovers))
  /\ main (H := Demo.closed_input) shipped Demo.leftovers
     = (Raise EOFError, printed Instructions Demo.leftovers).
Proof.
  split.
  - apply (main_stops_at_the_prompt (H := Demo.cancelling) shipped Demo.leftovers
             KeyboardInterrupt). reflexivity.
  - apply (main_stops_at_the_prompt (H := Demo.closed_input) shipped Demo.leftovers
             EOFError). reflexivity.
Defined.

Lemma main_clears_before_import_witness :
  let run := main (H := Demo.no_key) shipped Demo.leftovers in
  run.1 = Raise ImportError
  /\ dom (knowledge_dir run.2) = {[ str "archive" ]}
  /\ summaries_dir run.2 = ∅.
Proof.
  intros run. subst run.
  rewrite (main_clears_before_import (H := Demo.no_key) shipped Demo.leftovers
             ImportError); [|reflexivity|reflexivity].
  vm_compute. repeat split.
Defined.

Lemma main_without_pdf_files_witness :
  let run := main (H := Demo.no_books) shipped Demo.leftovers in
  run.1 = Ok tt
  /\ requests run.2 = []
  /\ dom (knowledge_dir run.2) = {[ str "archive" ]}
  /\ summaries_dir run.2 = ∅.
Proof.
  intros run. subst run.
  rewrite (main_without_pdf_files (H := Demo.no_books) shipped Demo.leftovers);
    [|reflexivity|reflexivity|repeat constructor].
  vm_compute. repeat split.
Defined.

Lemma page_loop_only_appends_witness :
  [Demo.fact] `prefix_of` Demo.fact :: repeat Demo.fact 11
  /\ (length [Demo.fact] <= length (Demo.fact :: repeat Demo.fact 11))%nat.
Proof.
  apply (page_loop_only_appends (H := Demo.externals) shipped 25 Demo.book
           (repeat (str "page text") 11) 0 [Demo.fact] (Demo.fact :: repeat Demo.fact 11)
           Demo.empty_world
           (page_loop (H := Demo.externals) shipped 25 Demo.book 0
              (repeat (str "page text") 11) [Demo.fact] Demo.empty_world).2).
  vm_compute. reflexivity.
Defined.

Lemma no_final_summary_beyond_page_count_witness :
  let config := {| ANALYSIS_INTERVAL := Some 20; TEST_PAGES := Some 30 |} in
  let w' := (process_book (H := Demo.externals) config Demo.book [] Demo.empty_world).2 in
  trace w' = [Due 20 false; Wrote false]
  /\ exists shown,
       trace w' = trace Demo.empty_world ++ shown
       /\ (forall page, Due page true ∉ shown)
       /\ Wrote true ∉ shown.
Proof.
  intros config w'. split; [vm_compute; reflexivity|].
  apply (no_final_summary_beyond_page_count (H := Demo.externals) config Demo.book
           (repeat (str "page text") 25) [] Demo.empty_world w' 30).
  - reflexivity.
  - reflexivity.
  - vm_compute. reflexivity.
  - vm_compute. reflexivity.
Defined.

Lemma process_book_without_pages_witness :
  let config := {| ANALYSIS_INTERVAL := Some 20; TEST_PAGES := Some 0 |} in
  process_book (H := Demo.externals) config Demo.book [Demo.fact] Demo.leftovers
  = (Ok tt,
     {| knowledge_dir := knowledge_dir Demo.leftovers;
        summaries_dir := summaries_dir Demo.leftovers;
        requests := requests Demo.leftovers;
        console := console Demo.leftovers
                   ++ [ProcessingPages
                         (pages_to_process_of config
                            (Z.of_nat (length (repeat (str "page text") 25))));
                       BookComplete Demo.book] |}).
Proof.
  intros config.
  apply (process_book_without_pages (H := Demo.externals) config Demo.book
           (repeat (str "page text") 25) [Demo.fact] Demo.leftovers).
  - reflexivity.
  - right. exists 0. split; [reflexivity|]. vm_compute. discriminate.
Defined.

Lemma same_stem_shares_knowledge_witness :
  load_existing_knowledge (str "book.pdf.pdf") Demo.interrupted
  = (Ok (repeat Demo.fact 11),
     printed (LoadedExisting (length (repeat Demo.fact 11)))
       (printed LoadingExisting Demo.interrupted)).
Proof.
  apply (same_stem_shares_knowledge (H := Demo.externals) shipped 25 Demo.book
           (str "book.pdf.pdf") 0 (repeat (str "page text") 11) []
           (repeat Demo.fact 11) Demo.empty_world Demo.interrupted).
  - reflexivity.
  - discriminate.
  - vm_compute. reflexivity.
Defined.

Lemma summary_kinds_counted_apart_witness :
  let w' := (save_summary (H := Demo.externals) (str "new summary") true Demo.book
               Demo.gap).2 in
  matching (summary_pattern (negb true) Demo.book) (summaries_dir w')
  = matching (summary_pattern (negb true) Demo.book) (summaries_dir Demo.gap).
Proof.
  intros w'.
  apply (summary_kinds_counted_apart (H := Demo.externals) (str "new summary") true
           Demo.book Demo.gap w').
  - apply glob_literal_str_checked. reflexivity.
  - vm_compute. reflexivity.
Defined.

Lemma longer_name_raises_the_count_witness :
  let w :=
    {| knowledge_dir := ∅;
       summaries_dir :=
         {[ str "book_interval_vol2_interval_001.md" := File (Text (str "summary")) ]};
       requests := []; console := [] |} in
  let w' := (save_summary (H := Demo.externals) (str "new summary") false Demo.book w).2 in
  dom (summaries_dir w')
  = {[ str "book_interval_vol2_interval_001.md"; str "book_interval_002.md" ]}
  /\ exists number,
       (2 <= number)%nat
       /\ summaries_dir w'
          = <[summary_file false Demo.book number
                := File (Text (markdown_content (H := Demo.externals)
                                 (str "new summary") Demo.book))]> (summaries_dir w).
Proof.
  intros w w'. split; [vm_compute; reflexivity|].
  apply (longer_name_raises_the_count (H := Demo.externals) (str "new summary") false
           Demo.book (str "book_interval_vol2.pdf") (str "vol2") 1
           (File (Text (str "summary"))) w w').
  - apply glob_literal_str_checked. reflexivity.
  - reflexivity.
  - vm_compute. reflexivity.
  - discriminate.
  - vm_compute. reflexivity.
Defined.

Lemma book_loop_raises_only_from_load_witness :
  exists pdf_name w0,
    pdf_name ∈ [str "broken.pdf"; Demo.book]
    /\ load_existing_knowledge pdf_name w0
       = (Raise IsADirectoryError,
          (book_loop (H := Demo.externals) shipped [str "broken.pdf"; Demo.book]
             Demo.squatted).2).
Proof.
  apply (book_loop_raises_only_from_load (H := Demo.externals) shipped
           [str "broken.pdf"; Demo.book] Demo.squatted).
  - vm_compute. reflexivity.
  - reflexivity.
Defined.
